(** * anvio/kofam.py: the KOfam setup pipeline

    A shallow embedding of [KofamContext] and [KofamSetup] (anvio/kofam.py)
    and the properties of the skip list, the completeness check, the
    concatenation list, the construction-time guard and the driver.

    Conventions of the embedding:
    - Python values that reach the code through [args] and through the
      cells of the ko_list table are [pyval]s; truthiness and [==] are
      written out.
    - an exception is a value of [exn]; a computation that can raise
      returns an [outcome].
    - the file system is a finite map from path strings to nodes; the
      Python standard library calls the module makes ([os.path.join],
      [os.path.dirname], [os.path.exists], [shutil.rmtree], [os.remove])
      are modelled on it.  Paths are compared as strings (no symbolic
      links, no normalisation, no permission errors).
    - the functions of anvio.utils and anvio.filesnpaths and the hmmpress
      binary are collaborators whose code is not part of this module: they
      are parameters of the development ([Collaborators]).
    - calls to [self.run] and [self.progress] only report to the terminal
      and are left out. *)

From Stdlib Require Import Ascii String ZArith.
From stdpp Require Import gmap strings list fin_maps.

(** * Part I: the embedding *)

(** ** Python values and exceptions *)

Inductive pyval :=
| PyNone
| PyBool (b : bool)
| PyInt (n : Z)
| PyStr (s : string).

Global Instance pyval_eq_dec : EqDecision pyval.
Proof. solve_decision. Defined.

(** [bool(v)] *)
Definition py_truthy (v : pyval) : bool :=
  match v with
  | PyNone => false
  | PyBool b => b
  | PyInt n => negb (Z.eqb n 0)
  | PyStr s => negb (String.eqb s "")
  end.

(** [a or b] *)
Definition py_or (a b : pyval) : pyval := if py_truthy a then a else b.

(** [a == b]; a [bool] compares as the integer 0 or 1 *)
Definition py_eq (a b : pyval) : bool :=
  match a, b with
  | PyNone, PyNone => true
  | PyStr s, PyStr t => String.eqb s t
  | PyBool x, PyBool y => Bool.eqb x y
  | PyInt n, PyInt m => Z.eqb n m
  | PyBool x, PyInt m => Z.eqb (if x then 1 else 0) m
  | PyInt n, PyBool y => Z.eqb n (if y then 1 else 0)
  | _, _ => false
  end.

Inductive exn :=
| ConfigError (msg : string)
| FilesNPathsError (msg : string)
| KeyError (key : string)
| AttributeError (name : string)
| TypeError
| FileNotFoundError (path : string)
| NotADirectoryError (path : string)
| IsADirectoryError (path : string)
| OtherError (msg : string).

Global Instance exn_eq_dec : EqDecision exn.
Proof. solve_decision. Defined.

Inductive outcome (A : Type) :=
| Return (a : A)
| Raise (e : exn).
Arguments Return {A} a.
Arguments Raise {A} e.

Global Instance outcome_ret : MRet outcome := @Return.
Global Instance outcome_bind : MBind outcome := λ A B k m,
  match m with
  | Return a => k a
  | Raise e => Raise e
  end.
Global Arguments outcome_bind {_ _} _ !_ /.

(** ** os.path (posixpath) *)

Module posixpath.

Definition sep : ascii := "/"%char.

Definition startswith_sep (s : string) : bool :=
  match s with
  | String a _ => Ascii.eqb a sep
  | "" => false
  end.

Fixpoint endswith_sep (s : string) : bool :=
  match s with
  | "" => false
  | String a "" => Ascii.eqb a sep
  | String _ s' => endswith_sep s'
  end.

(** [os.path.join(a, b)]: an absolute [b] replaces [a]; a separator is
    inserted unless [a] is empty or already ends with one. *)
Definition join (a b : string) : string :=
  if startswith_sep b then b
  else if String.eqb a "" || endswith_sep a then a +:+ b
  else a +:+ "/" +:+ b.

(** [p[:p.rfind('/') + 1]] *)
Fixpoint head_upto_last_sep (p : string) : string :=
  match p with
  | "" => ""
  | String a p' =>
      match head_upto_last_sep p' with
      | "" => if Ascii.eqb a sep then "/" else ""
      | h => String a h
      end
  end.

Fixpoint all_sep (s : string) : bool :=
  match s with
  | "" => true
  | String a s' => Ascii.eqb a sep && all_sep s'
  end.

(** [s.rstrip('/')] *)
Fixpoint rstrip_sep (s : string) : string :=
  match s with
  | "" => ""
  | String a s' =>
      match rstrip_sep s' with
      | "" => if Ascii.eqb a sep then "" else String a ""
      | r => String a r
      end
  end.

(** [os.path.dirname(p)] *)
Definition dirname (p : string) : string :=
  let head := head_upto_last_sep p in
  if negb (String.eqb head "") && negb (all_sep head)
  then rstrip_sep head else head.

End posixpath.

(** [s.endswith(suffix)] *)
Definition endswith (s suffix : string) : bool :=
  String.prefix (String.rev suffix) (String.rev s).

(** ** The catalog: [self.ko_dict]

    A dictionary indexed by knum of dictionaries indexed by column name.
    Iteration order matters to the module (it decides which missing file
    is reported and the order of concatenation), so the outer dictionary
    is the list of its items in iteration order; [d[k]] is the lookup of
    the key. *)

Abbreviation entry := (gmap string pyval).
Definition catalog := list (string * entry).

Definition dict_keys (d : catalog) : list string := d.*1.

Fixpoint dict_lookup (d : catalog) (k : string) : option entry :=
  match d with
  | [] => None
  | (k', e) :: d' => if String.eqb k' k then Some e else dict_lookup d' k
  end.

(** [d[k]] *)
Definition dict_getitem (d : catalog) (k : string) : outcome entry :=
  match dict_lookup d k with
  | Some e => Return e
  | None => Raise (KeyError k)
  end.

(** [e[c]] *)
Definition entry_getitem (e : entry) (c : string) : outcome pyval :=
  match e !! c with
  | Some v => Return v
  | None => Raise (KeyError c)
  end.

(** [k in l] on a list of strings *)
Definition list_contains (l : list string) (k : string) : bool :=
  existsb (String.eqb k) l.

(** ** KofamContext.get_ko_skip_list *)

Definition col_names_to_check : list string :=
  ["threshold"; "score_type"; "profile_type"; "F-measure"; "nseq";
   "nseq_used"; "alen"; "mlen"; "eff_nseq"; "re/pos"].

(** The inner loop over the column names: the value of [should_skip] when
    the loop is left. *)
Fixpoint should_skip_loop (d : catalog) (k : string) (cols : list string)
  : outcome bool :=
  match cols with
  | [] => Return true
  | c :: cols' =>
      e ← dict_getitem d k;
      v ← entry_getitem e c;
      if negb (py_eq v (PyStr "-")) then Return false
      else should_skip_loop d k cols'
  end.

(** The outer loop over [self.ko_dict.keys()], threading [skip_list]. *)
Fixpoint skip_list_loop (d : catalog) (ks : list string)
  (skip_list : list string) : outcome (list string) :=
  match ks with
  | [] => Return skip_list
  | k :: ks' =>
      should_skip ← should_skip_loop d k col_names_to_check;
      skip_list_loop d ks'
        (if (should_skip : bool) then skip_list ++ [k] else skip_list)
  end.

Definition get_ko_skip_list (d : catalog) : outcome (list string) :=
  skip_list_loop d (dict_keys d) [].

(** ** The file system and the standard-library calls that change it *)

Inductive node := File | Dir.

Abbreviation FS := (gmap string node).

(** [os.path.exists(p)] *)
Definition os_path_exists (fs : FS) (p : string) : bool :=
  match fs !! p with
  | Some _ => true
  | None => false
  end.

(** What [os.path.join] puts in front of a relative second argument: the
    directory with its separator. *)
Definition dir_prefix (a : string) : string :=
  if String.eqb a "" || posixpath.endswith_sep a then a else a +:+ "/".

(** [p] is the directory [d] or a path below it. *)
Definition under (d p : string) : bool :=
  String.eqb p d || String.prefix (dir_prefix d) p.

(** [shutil.rmtree(d)] *)
Definition shutil_rmtree (d : string) (fs : FS) : FS * outcome unit :=
  match fs !! d with
  | None => (fs, Raise (FileNotFoundError d))
  | Some File => (fs, Raise (NotADirectoryError d))
  | Some Dir => (filter (λ x : string * node, under d x.1 = false) fs, Return tt)
  end.

(** [os.remove(p)] *)
Definition os_remove (p : string) (fs : FS) : FS * outcome unit :=
  match fs !! p with
  | None => (fs, Raise (FileNotFoundError p))
  | Some Dir => (fs, Raise (IsADirectoryError p))
  | Some File => (delete p fs, Return tt)
  end.

(** ** The world: the file system and the log of collaborator calls *)

Inductive call :=
| CGetTable (path : string)
| CIsProgramExists (program : string)
| CGenOutputDirectory (dir : string) (delete_if_exists : pyval)
| CDownloadFile (url path : string)
| CTarExtractFile (path output_file_path : string) (keep_original : bool)
| CGzipDecompressFile (path : string) (keep_original : bool)
| CConcatenateFiles (dest : string) (file_list : list string)
    (remove_concatenated_files : bool)
| CRmtree (path : string)
| CRunCommand (cmd_line : list string) (log_file_path : string)
| CRemove (path : string).

Global Instance call_eq_dec : EqDecision call.
Proof. solve_decision. Defined.

Record World := { fs : FS; calls : list call }.

(** A method that touches the world: the world it leaves and its outcome.
    An exception keeps the changes made before it was raised. *)
Definition M (A : Type) : Type := World → World * outcome A.

Global Instance M_ret : MRet M := λ A a w, (w, Return a).
Global Instance M_bind : MBind M := λ A B k m w,
  match m w with
  | (w', Return a) => k a w'
  | (w', Raise e) => (w', Raise e)
  end.

Definition raise {A} (e : exn) : M A := λ w, (w, Raise e).

(** A computation that only reads the file system. *)
Definition observe {A} (f : FS → outcome A) : M A := λ w, (w, f (fs w)).

(** A logged call of something that may change the file system. *)
Definition invoke {A} (c : call) (f : FS → FS * outcome A) : M A := λ w,
  let '(fs', r) := f (fs w) in
  ({| fs := fs'; calls := calls w ++ [c] |}, r).

(** [for x in l: body(x)] *)
Fixpoint for_each {A} (l : list A) (body : A → M unit) : M unit :=
  match l with
  | [] => mret tt
  | x :: l' => body x;; for_each l' body
  end.

(** ** Collaborators and environment *)

(** The functions of [anvio.utils] and [anvio.filesnpaths] the module
    calls, as effects on the file system.  [run_command] stands for the
    run of the external program; its result is the exit status. *)
Record Collaborators := {
  get_TAB_delimited_file_as_dictionary : string → FS → FS * outcome catalog;
  is_program_exists : string → FS → FS * outcome unit;
  gen_output_directory : string → pyval → FS → FS * outcome unit;
  download_file : string → string → FS → FS * outcome unit;
  tar_extract_file : string → string → bool → FS → FS * outcome unit;
  gzip_decompress_file : string → bool → FS → FS * outcome unit;
  concatenate_files : string → list string → bool → FS → FS * outcome unit;
  run_command : list string → string → FS → FS * outcome Z
}.

(** [anvio.DEBUG] and [anvio.__file__] *)
Record Env := { DEBUG : bool; anvio_file : string }.

(** ** KofamContext *)

Record KofamContext := {
  kofam_data_dir : string;
  kofam_hmm_file_path : string;
  ko_list_file_path : string;
  ko_dict : catalog;
  ko_skip_list : list string
}.

(** [args.__dict__] *)
Abbreviation Namespace := (gmap string pyval).

(** [A = lambda x: args.__dict__[x] if x in args.__dict__ else None] *)
Definition A (args : Namespace) (x : string) : pyval :=
  match args !! x with
  | Some v => v
  | None => PyNone
  end.

(** [args.<name>] *)
Definition getattr (args : Namespace) (name : string) : outcome pyval :=
  match args !! name with
  | Some v => Return v
  | None => Raise (AttributeError name)
  end.

(** The argument of [os.path.join] has to be a string. *)
Definition as_path (v : pyval) : outcome string :=
  match v with
  | PyStr s => Return s
  | _ => Raise TypeError
  end.

(** ** KofamSetup *)

Record KofamSetup := {
  base :> KofamContext;
  args_of : Namespace;
  database_url : string;
  files : list string
}.

(** The message of [is_database_exists]. *)
Definition already_installed_msg (dir : string) : string :=
  "It seems you already have KOfam HMM profiles installed in '" +:+ dir
  +:+ "', please use --reset flag if you want to re-download it.".

(** The message of [confirm_downloaded_files]; the literal continues over
    two line breaks, so the indentation of the source is part of it. *)
Definition missing_profile_msg (hmm_path : string) : string :=
  "The KOfam HMM profile at " +:+ hmm_path
  +:+ " does not exist. This probably means that something went wrong                                     while downloading the KOfam database. Please run `anvi-setup-kegg-kofams` with the --reset                                     flag.".

(** The message of [run_hmmpress]. *)
Definition hmmpress_failed_msg (log_file_path : string) : string :=
  "Hmm. There was an error while running `hmmpress` on the Kofam HMM profiles.                                 Check out the log file ('"
  +:+ log_file_path +:+ "') to see what went wrong.".

(** ["profiles/%s.hmm" % k] under the data directory *)
Definition hmm_path_of (dir k : string) : string :=
  posixpath.join dir ("profiles/" +:+ k +:+ ".hmm").

(** ** The methods *)

Section Kofam.

Variable X : Collaborators.
Variable env : Env.

Definition default_kofam_data_dir : string :=
  posixpath.join (posixpath.dirname (anvio_file env)) "data/misc/KEGG".

(** [KofamContext.__init__] *)
Definition KofamContext_init (args : Namespace) : M KofamContext :=
  dir ← observe (λ _,
    as_path (py_or (A args "kofam_data_dir") (PyStr default_kofam_data_dir)));
  let hmm_file := posixpath.join dir "Kofam.hmm" in
  let ko_list := posixpath.join dir "ko_list" in
  d ← invoke (CGetTable ko_list) (get_TAB_delimited_file_as_dictionary X ko_list);
  skip ← observe (λ _, get_ko_skip_list d);
  mret {| kofam_data_dir := dir; kofam_hmm_file_path := hmm_file;
          ko_list_file_path := ko_list; ko_dict := d; ko_skip_list := skip |}.

(** [KofamSetup.is_database_exists] *)
Definition is_database_exists (self : KofamContext) (fs : FS) : outcome unit :=
  if os_path_exists fs (posixpath.join (kofam_data_dir self) "profiles/K00001.hmm")
  then Raise (ConfigError (already_installed_msg (kofam_data_dir self)))
  else Return tt.

(** [KofamSetup.__init__] *)
Definition KofamSetup_init (args : Namespace) : M KofamSetup :=
  self ← KofamContext_init args;
  invoke (CIsProgramExists "hmmpress") (is_program_exists X "hmmpress");;
  reset ← observe (λ _, getattr args "reset");
  (if negb (py_truthy reset) && negb (DEBUG env)
   then observe (is_database_exists self) else mret tt);;
  reset ← observe (λ _, getattr args "reset");
  invoke (CGenOutputDirectory (kofam_data_dir self) reset)
         (gen_output_directory X (kofam_data_dir self) reset);;
  mret {| base := self; args_of := args;
          database_url := "ftp://ftp.genome.jp/pub/db/kofam";
          files := ["ko_list.gz"; "profiles.tar.gz"] |}.

(** [KofamSetup.download] *)
Definition download (self : KofamSetup) : M unit :=
  for_each (files self) (λ file_name,
    let url := database_url self +:+ "/" +:+ file_name in
    let path := posixpath.join (kofam_data_dir self) file_name in
    invoke (CDownloadFile url path) (download_file X url path)).

(** [KofamSetup.decompress_files] *)
Definition decompress_files (self : KofamSetup) : M unit :=
  for_each (files self) (λ file_name,
    let full_path := posixpath.join (kofam_data_dir self) file_name in
    if endswith full_path "tar.gz"
    then invoke (CTarExtractFile full_path (kofam_data_dir self) false)
                (tar_extract_file X full_path (kofam_data_dir self) false)
    else invoke (CGzipDecompressFile full_path false)
                (gzip_decompress_file X full_path false)).

(** The loop of [confirm_downloaded_files] over the keys still to check. *)
Fixpoint confirm_loop (self : KofamContext) (fs : FS) (ko_nums : list string)
  : outcome unit :=
  match ko_nums with
  | [] => Return tt
  | k :: ko_nums' =>
      if negb (list_contains (ko_skip_list self) k) then
        let hmm_path := hmm_path_of (kofam_data_dir self) k in
        if negb (os_path_exists fs hmm_path)
        then Raise (ConfigError (missing_profile_msg hmm_path))
        else confirm_loop self fs ko_nums'
      else confirm_loop self fs ko_nums'
  end.

(** [KofamSetup.confirm_downloaded_files] *)
Definition confirm_downloaded_files (self : KofamContext) (fs : FS)
  : outcome unit :=
  confirm_loop self fs (dict_keys (ko_dict self)).

(** The list comprehension of [run_hmmpress]. *)
Definition hmm_list (self : KofamContext) : list string :=
  map (hmm_path_of (kofam_data_dir self))
      (List.filter (λ k, negb (list_contains (ko_skip_list self) k))
                   (dict_keys (ko_dict self))).

(** [KofamSetup.run_hmmpress] *)
Definition run_hmmpress (self : KofamContext) : M unit :=
  let log_file_path := posixpath.join (kofam_data_dir self) "00_hmmpress_log.txt" in
  observe (confirm_downloaded_files self);;
  invoke (CConcatenateFiles (kofam_hmm_file_path self) (hmm_list self) false)
         (concatenate_files X (kofam_hmm_file_path self) (hmm_list self) false);;
  (if negb (DEBUG env)
   then let profiles := posixpath.join (kofam_data_dir self) "profiles" in
        invoke (CRmtree profiles) (shutil_rmtree profiles)
   else mret tt);;
  let cmd_line := ["hmmpress"; kofam_hmm_file_path self] in
  let log_file_path := posixpath.join (kofam_data_dir self) "00_hmmpress_log.txt" in
  ret_val ← invoke (CRunCommand cmd_line log_file_path)
                   (run_command X cmd_line log_file_path);
  if negb (Z.eqb ret_val 0)
  then raise (ConfigError (hmmpress_failed_msg log_file_path))
  else invoke (CRemove log_file_path) (os_remove log_file_path).

(** [KofamSetup.setup_profiles] *)
Definition setup_profiles (self : KofamSetup) : M unit :=
  download self;;
  decompress_files self;;
  run_hmmpress self.

(** ** The stages of [run_hmmpress]

    The body of [run_hmmpress] in two parts, split at the comment
    "Running hmmpress...", and the two collaborator calls of it;
    [run_hmmpress_stages] shows that the parts make up the method. *)

Definition log_file_path_of (self : KofamContext) : string :=
  posixpath.join (kofam_data_dir self) "00_hmmpress_log.txt".

Definition profiles_dir (self : KofamContext) : string :=
  posixpath.join (kofam_data_dir self) "profiles".

(** The call of [utils.concatenate_files] in [run_hmmpress]. *)
Definition concatenate (self : KofamContext) : M unit :=
  invoke (CConcatenateFiles (kofam_hmm_file_path self) (hmm_list self) false)
         (concatenate_files X (kofam_hmm_file_path self) (hmm_list self) false).

(** The call of the indexer in [run_hmmpress]. *)
Definition hmmpress (self : KofamContext) : M Z :=
  invoke (CRunCommand ["hmmpress"; kofam_hmm_file_path self] (log_file_path_of self))
         (run_command X ["hmmpress"; kofam_hmm_file_path self] (log_file_path_of self)).

(** [run_hmmpress] up to the removal of the profiles: the check, the
    concatenation and the clean-up. *)
Definition verify_and_concatenate (self : KofamContext) : M unit :=
  observe (confirm_downloaded_files self);;
  concatenate self;;
  (if negb (DEBUG env)
   then invoke (CRmtree (profiles_dir self)) (shutil_rmtree (profiles_dir self))
   else mret tt).

(** [run_hmmpress] from the comment "Running hmmpress..." on. *)
Definition run_indexer (self : KofamContext) : M unit :=
  ret_val ← hmmpress self;
  if negb (Z.eqb ret_val 0)
  then raise (ConfigError (hmmpress_failed_msg (log_file_path_of self)))
  else invoke (CRemove (log_file_path_of self)) (os_remove (log_file_path_of self)).

End Kofam.

(** ** Vocabulary of the properties *)

(** The classification as the specification words it: the identifier has
    an entry and every designated column of it holds the sentinel. *)
Definition sentinel_at (e : entry) (c : string) : bool :=
  match e !! c with
  | Some v => py_eq v (PyStr "-")
  | None => false
  end.

Definition placeholder_only (d : catalog) (k : string) : bool :=
  match dict_lookup d k with
  | Some e => forallb (sentinel_at e) col_names_to_check
  | None => false
  end.

(** Every entry of the catalog carries the ten designated columns. *)
Definition has_designated_columns (d : catalog) : Prop :=
  Forall (λ item : string * entry,
            Forall (λ c, is_Some (item.2 !! c)) col_names_to_check) d.

(** The identifier is checked and its profile is there. *)
Definition profile_present (self : KofamContext) (fs : FS) (k : string) : Prop :=
  k ∉ ko_skip_list self →
  os_path_exists fs (hmm_path_of (kofam_data_dir self) k) = true.

(** [k] is the first identifier of [ks] that is checked and whose profile
    is absent. *)
Definition first_missing (self : KofamContext) (fs : FS) (ks : list string)
  (k : string) : Prop :=
  ∃ before after,
    ks = before ++ k :: after ∧
    (k ∉ ko_skip_list self) ∧
    os_path_exists fs (hmm_path_of (kofam_data_dir self) k) = false ∧
    ∀ k', k' ∈ before → profile_present self fs k'.

(** Every call a method adds to the log satisfies [P]. *)
Definition emits {A} (P : call → Prop) (m : M A) : Prop :=
  ∀ w, ∃ t, calls (m w).1 = calls w ++ t ∧ Forall P t.

(** The calls a method adds to the log come in consecutive groups, one
    for each predicate of [Ps]. *)
Definition emits_in {A} (Ps : list (call → Prop)) (m : M A) : Prop :=
  ∀ w, ∃ ts, calls (m w).1 = calls w ++ concat ts ∧
         Forall2 (λ P t, Forall P t) Ps ts.

(** The stage a call belongs to. *)
Inductive stage := Construct | Download | Decompress | Concatenate | Index.

Definition stage_of (c : call) : stage :=
  match c with
  | CGetTable _ | CIsProgramExists _ | CGenOutputDirectory _ _ => Construct
  | CDownloadFile _ _ => Download
  | CTarExtractFile _ _ _ | CGzipDecompressFile _ _ => Decompress
  | CConcatenateFiles _ _ _ | CRmtree _ => Concatenate
  | CRunCommand _ _ | CRemove _ => Index
  end.

Definition in_stage (s : stage) (c : call) : Prop := stage_of c = s.

(** The call [download] makes for a file and the call [decompress_files]
    makes for it. *)
Definition download_call (self : KofamSetup) (file_name : string) : call :=
  CDownloadFile (database_url self +:+ "/" +:+ file_name)
                (posixpath.join (kofam_data_dir self) file_name).

Definition decompress_call (self : KofamSetup) (file_name : string) : call :=
  let full_path := posixpath.join (kofam_data_dir self) file_name in
  if endswith full_path "tar.gz"
  then CTarExtractFile full_path (kofam_data_dir self) false
  else CGzipDecompressFile full_path false.

(** The calls of a run of [setup_profiles] that returns. *)
Definition complete_run_calls (env : Env) (self : KofamSetup) : list call :=
  (download_call self <$> files self) ++
  (decompress_call self <$> files self) ++
  [CConcatenateFiles (kofam_hmm_file_path self) (hmm_list self) false] ++
  (if DEBUG env then [] else [CRmtree (profiles_dir self)]) ++
  [CRunCommand ["hmmpress"; kofam_hmm_file_path self] (log_file_path_of self);
   CRemove (log_file_path_of self)].

(** The object [KofamSetup.__init__] leaves. *)
Definition constructed (self : KofamContext) (args : Namespace) : KofamSetup :=
  {| base := self; args_of := args;
     database_url := "ftp://ftp.genome.jp/pub/db/kofam";
     files := ["ko_list.gz"; "profiles.tar.gz"] |}.

(** Modelled from the spec: [filesnpaths.gen_output_directory] is not part
    of this module.  The specification has it "create the directory; if a
    reset was requested, first delete any existing contents": a call with
    the flag set that returns leaves nothing below the directory. *)
Definition gen_output_directory_clears (X : Collaborators) : Prop :=
  ∀ dir flag fs fs',
    py_truthy flag = true →
    gen_output_directory X dir flag fs = (fs', Return tt) →
    ∀ p, under dir p = true → p ≠ dir → fs' !! p = None.

(** Modelled from the spec: the hmmpress program that [utils.run_command]
    starts is not part of this module.  The specification has it write
    index files alongside the compiled artifact and its output to the log
    file: its run puts nothing into the profiles directory. *)
Definition indexer_leaves_profiles_absent (X : Collaborators)
  (self : KofamContext) : Prop :=
  ∀ fs p,
    under (profiles_dir self) p = true → fs !! p = None →
    (run_command X ["hmmpress"; kofam_hmm_file_path self]
                 (log_file_path_of self) fs).1 !! p = None.

(** ** Example data: the two-entry catalog of the end-to-end scenarios *)

Definition K00001_entry : entry :=
  list_to_map
    [("threshold", PyStr "329.57"); ("score_type", PyStr "domain");
     ("profile_type", PyStr "trim"); ("F-measure", PyStr "0.231663");
     ("nseq", PyStr "1473"); ("nseq_used", PyStr "1069");
     ("alen", PyStr "1798"); ("mlen", PyStr "371");
     ("eff_nseq", PyStr "17.12"); ("re/pos", PyStr "0.590");
     ("definition", PyStr "alcohol dehydrogenase [EC:1.1.1.1]")].

Definition K14936_entry : entry :=
  list_to_map
    [("threshold", PyStr "-"); ("score_type", PyStr "-");
     ("profile_type", PyStr "-"); ("F-measure", PyStr "-");
     ("nseq", PyStr "-"); ("nseq_used", PyStr "-");
     ("alen", PyStr "-"); ("mlen", PyStr "-");
     ("eff_nseq", PyStr "-"); ("re/pos", PyStr "-");
     ("definition", PyStr "small nucleolar RNA snR191")].

Definition example_catalog : catalog :=
  [("K00001", K00001_entry); ("K14936", K14936_entry)].

(** A table whose header has only the columns knum, threshold and
    definition. *)
Definition narrow_catalog : catalog :=
  [("K14936",
    list_to_map [("threshold", PyStr "-");
                 ("definition", PyStr "small nucleolar RNA snR191")])].

(** ** Simulated collaborators, for the examples

    A remote site and a host: the identifiers whose profile is in the
    archive, the table that [ko_list] holds, whether hmmpress is
    installed and the exit status of its run. *)

Record Site := {
  archive : list string;
  table : catalog;
  hmmpress_installed : bool;
  hmmpress_exit : Z
}.

Definition clear_dir (dir : string) (fs : FS) : FS :=
  filter (λ x : string * node, under dir x.1 = false) fs.

Definition sim (site : Site) : Collaborators := {|
  get_TAB_delimited_file_as_dictionary path fs :=
    match fs !! path with
    | Some File => (fs, Return (table site))
    | _ => (fs, Raise (FilesNPathsError ("No such file: " +:+ path)))
    end;
  is_program_exists program fs :=
    if hmmpress_installed site then (fs, Return tt)
    else (fs, Raise (ConfigError ("An anvi'o function needs '" +:+ program
                                  +:+ "' to be installed on your system.")));
  gen_output_directory dir delete_if_exists fs :=
    (<[dir := Dir]> (if py_truthy delete_if_exists then clear_dir dir fs else fs),
     Return tt);
  download_file url path fs := (<[path := File]> fs, Return tt);
  tar_extract_file path output_file_path keep_original fs :=
    let extracted :=
      foldr (λ k acc, <[hmm_path_of output_file_path k := File]> acc)
            (<[posixpath.join output_file_path "profiles" := Dir]> fs)
            (archive site) in
    (if keep_original then extracted else delete path extracted, Return tt);
  gzip_decompress_file path keep_original fs :=
    let expanded :=
      <[String.substring 0 (String.length path - 3) path := File]> fs in
    (if keep_original then expanded else delete path expanded, Return tt);
  concatenate_files dest file_list remove_concatenated_files fs :=
    if forallb (os_path_exists fs) file_list
    then (<[dest := File]> fs, Return tt)
    else (fs, Raise (FilesNPathsError "No such file"));
  run_command cmd_line log_file_path fs :=
    let logged := <[log_file_path := File]> fs in
    if Z.eqb (hmmpress_exit site) 0
    then (foldr (λ suffix acc, <[List.last cmd_line "" +:+ suffix := File]> acc)
                logged [".h3f"; ".h3i"; ".h3m"; ".h3p"],
          Return 0%Z)
    else (logged, Return (hmmpress_exit site))
|}.

Definition complete_site : Site :=
  {| archive := ["K00001"]; table := example_catalog;
     hmmpress_installed := true; hmmpress_exit := 0 |}.

Definition incomplete_site : Site :=
  {| archive := []; table := example_catalog;
     hmmpress_installed := true; hmmpress_exit := 0 |}.

Definition failing_hmmpress_site : Site :=
  {| archive := ["K00001"]; table := example_catalog;
     hmmpress_installed := true; hmmpress_exit := 1 |}.

Definition normal_env : Env :=
  {| DEBUG := false; anvio_file := "/opt/anvio/anvio/__init__.py" |}.

Definition debug_env : Env :=
  {| DEBUG := true; anvio_file := "/opt/anvio/anvio/__init__.py" |}.

Definition example_context : KofamContext :=
  {| kofam_data_dir := "/data/KEGG";
     kofam_hmm_file_path := "/data/KEGG/Kofam.hmm";
     ko_list_file_path := "/data/KEGG/ko_list";
     ko_dict := example_catalog;
     ko_skip_list := ["K14936"] |}.

Definition example_setup : KofamSetup :=
  {| base := example_context;
     args_of := {[ "reset" := PyBool false ]};
     database_url := "ftp://ftp.genome.jp/pub/db/kofam";
     files := ["ko_list.gz"; "profiles.tar.gz"] |}.

Definition plain_args : Namespace :=
  {[ "kofam_data_dir" := PyStr "/data/KEGG"; "reset" := PyBool false ]}.

Definition reset_args : Namespace :=
  {[ "kofam_data_dir" := PyStr "/data/KEGG"; "reset" := PyBool true ]}.

(** A freshly prepared data directory. *)
Definition fresh_world : World :=
  {| fs := {[ "/data/KEGG" := Dir ]}; calls := [] |}.

(** A data directory after a set-up that kept the profiles. *)
Definition installed_world : World :=
  {| fs := list_to_map
             [("/data/KEGG", Dir); ("/data/KEGG/ko_list", File);
              ("/data/KEGG/Kofam.hmm", File); ("/data/KEGG/profiles", Dir);
              ("/data/KEGG/profiles/K00001.hmm", File)];
     calls := [] |}.

(** The data directory after download and decompression of a complete
    archive. *)
Definition extracted_world : World :=
  {| fs := list_to_map
             [("/data/KEGG", Dir); ("/data/KEGG/ko_list", File);
              ("/data/KEGG/profiles", Dir);
              ("/data/KEGG/profiles/K00001.hmm", File)];
     calls := [] |}.

(** The default data directory holds a table. *)
Definition default_world : World :=
  {| fs := list_to_map
             [("/opt/anvio/anvio/data/misc/KEGG", Dir);
              ("/opt/anvio/anvio/data/misc/KEGG/ko_list", File)];
     calls := [] |}.

(** ** Vocabulary of the further properties *)

(** Column [c] is missing from the entry and every designated column
    before it holds the sentinel: the scan of the columns reaches [c]. *)
Definition column_gap (e : entry) (c : string) : Prop :=
  ∃ before after,
    col_names_to_check = before ++ c :: after ∧
    e !! c = None ∧
    ∀ b, b ∈ before → e !! b = Some (PyStr "-").

(** Every designated column of the entry holds the sentinel. *)
Definition all_sentinel (e : entry) : bool :=
  forallb (sentinel_at e) col_names_to_check.

(** Two entries agree on the designated columns. *)
Definition same_designated (e e' : entry) : Prop :=
  ∀ c, c ∈ col_names_to_check → e !! c = e' !! c.

(** Two catalogs have the same identifiers in the same order and their
    entries agree on the designated columns. *)
Definition same_designated_catalog (d d' : catalog) : Prop :=
  Forall2 (λ item item' : string * entry,
             item.1 = item'.1 ∧ same_designated item.2 item'.2) d d'.

(** The example catalog without the definition column. *)
Definition bare_catalog : catalog :=
  [("K00001", delete "definition" K00001_entry);
   ("K14936", delete "definition" K14936_entry)].

(** A host without the hmmpress program. *)
Definition no_hmmpress_site : Site :=
  {| archive := ["K00001"]; table := example_catalog;
     hmmpress_installed := false; hmmpress_exit := 0 |}.

(** Arguments without the [reset] attribute, and arguments whose
    [kofam_data_dir] is not a string. *)
Definition args_without_reset : Namespace :=
  {[ "kofam_data_dir" := PyStr "/data/KEGG" ]}.

Definition args_with_flag_dir : Namespace :=
  {[ "kofam_data_dir" := PyBool true; "reset" := PyBool false ]}.

(** The string holds no path separator. *)
Fixpoint no_sep (s : string) : bool :=
  match s with
  | "" => true
  | String a s' => negb (Ascii.eqb a posixpath.sep) && no_sep s'
  end.

(** The call that [decompress_files] makes for a file, decided on the name
    of the file alone. *)
Definition decompress_call_by_name (self : KofamSetup) (file_name : string)
  : call :=
  if endswith file_name "tar.gz"
  then CTarExtractFile (posixpath.join (kofam_data_dir self) file_name)
                       (kofam_data_dir self) false
  else CGzipDecompressFile (posixpath.join (kofam_data_dir self) file_name)
                           false.

(** A file system that also holds a profile for the skip-listed K14936. *)
Definition extracted_world_with_rna : World :=
  {| fs := <["/data/KEGG/profiles/K14936.hmm" := File]> (fs extracted_world);
     calls := [] |}.

(** A context whose catalog holds placeholder entries only. *)
Definition rna_only_context : KofamContext :=
  {| kofam_data_dir := "/data/KEGG";
     kofam_hmm_file_path := "/data/KEGG/Kofam.hmm";
     ko_list_file_path := "/data/KEGG/ko_list";
     ko_dict := [("K14936", K14936_entry)];
     ko_skip_list := ["K14936"] |}.

(** * Part II: properties *)

(** ** Facts about strings and paths *)

Lemma string_app_cons (a : ascii) (s t : string) :
  String a s +:+ t = String a (s +:+ t).
Proof. reflexivity. Qed.

Lemma string_app_nil_r (s : string) : s +:+ "" = s.
Proof.
  induction s as [|a s IH]; [done|]. by rewrite string_app_cons, IH.
Qed.

Lemma string_app_assoc (a b c : string) : (a +:+ b) +:+ c = a +:+ b +:+ c.
Proof.
  induction a as [|x a IH]; [done|]. rewrite !string_app_cons. by rewrite IH.
Qed.

Lemma string_app_length (s t : string) :
  String.length (s +:+ t) = (String.length s + String.length t)%nat.
Proof.
  induction s as [|a s IH]; [done|]. rewrite string_app_cons. simpl.
  by rewrite IH.
Qed.

Lemma string_app_inj_r (s1 s2 t : string) : s1 +:+ t = s2 +:+ t → s1 = s2.
Proof.
  revert s2. induction s1 as [|a s1 IH]; intros [|b s2] H; [done| | |].
  - apply (f_equal String.length) in H.
    rewrite !string_app_length in H. simpl in H. lia.
  - apply (f_equal String.length) in H.
    rewrite !string_app_length in H. simpl in H. lia.
  - rewrite !string_app_cons in H. injection H as -> H. f_equal. by apply IH.
Qed.

Lemma prefix_app (s r : string) : String.prefix s (s +:+ r) = true.
Proof.
  induction s as [|a s IH]; [by destruct r|]. rewrite string_app_cons. simpl.
  destruct (ascii_dec a a); [exact IH | done].
Qed.

Lemma prefix_inv (s p : string) :
  String.prefix s p = true → ∃ r, p = s +:+ r.
Proof.
  revert p. induction s as [|a s IH]; intros p H; [by exists p|].
  destruct p as [|b p]; simpl in H; [discriminate|].
  destruct (ascii_dec a b) as [->|]; [|discriminate].
  destruct (IH p H) as [r ->]. by exists r.
Qed.

Lemma join_relative (a b : string) :
  posixpath.startswith_sep b = false → posixpath.join a b = dir_prefix a +:+ b.
Proof.
  intros Hb. unfold posixpath.join, dir_prefix. rewrite Hb.
  destruct (String.eqb a "" || posixpath.endswith_sep a); [done|].
  by rewrite string_app_assoc.
Qed.

Lemma hmm_path_of_eq (dir k : string) :
  hmm_path_of dir k = dir_prefix dir +:+ "profiles/" +:+ k +:+ ".hmm".
Proof. unfold hmm_path_of. by rewrite join_relative. Qed.

Lemma hmm_path_of_inj (dir k1 k2 : string) :
  hmm_path_of dir k1 = hmm_path_of dir k2 → k1 = k2.
Proof.
  rewrite !hmm_path_of_eq. intros H.
  apply (inj (String.app _)) in H. apply (inj (String.app _)) in H.
  by apply string_app_inj_r in H.
Qed.

Lemma endswith_sep_app (a b : string) :
  b ≠ "" → posixpath.endswith_sep (a +:+ b) = posixpath.endswith_sep b.
Proof.
  intros Hb. induction a as [|x a IH]; [done|]. rewrite string_app_cons.
  destruct (a +:+ b) as [|c s] eqn:Hab.
  - destruct a, b; done.
  - rewrite <- IH. reflexivity.
Qed.

Lemma dir_prefix_join (dir name : string) :
  name ≠ "" →
  posixpath.startswith_sep name = false →
  posixpath.endswith_sep name = false →
  dir_prefix (posixpath.join dir name) = posixpath.join dir name +:+ "/".
Proof.
  intros Hne Hrel Hend. rewrite join_relative by done.
  unfold dir_prefix at 1. rewrite endswith_sep_app, Hend by done.
  destruct (String.eqb_spec (dir_prefix dir +:+ name) "") as [Heq|_]; [|done].
  destruct (dir_prefix dir), name; done.
Qed.

Lemma under_join_below (dir name rest : string) :
  name ≠ "" →
  posixpath.startswith_sep name = false →
  posixpath.endswith_sep name = false →
  under (posixpath.join dir name) (posixpath.join dir (name +:+ "/" +:+ rest))
  = true.
Proof.
  intros Hne Hrel Hend. unfold under. rewrite dir_prefix_join by done.
  assert (posixpath.startswith_sep (name +:+ "/" +:+ rest) = false) as Hrel'.
  { destruct name; [done|]. by rewrite string_app_cons. }
  rewrite (join_relative dir name), (join_relative dir (name +:+ _)) by done.
  replace (dir_prefix dir +:+ name +:+ "/" +:+ rest)
    with (((dir_prefix dir +:+ name) +:+ "/") +:+ rest)
    by (by rewrite !string_app_assoc).
  by rewrite prefix_app, orb_true_r.
Qed.

Lemma not_under_join_sibling (dir name other : string) :
  name ≠ "" →
  posixpath.startswith_sep name = false →
  posixpath.endswith_sep name = false →
  posixpath.startswith_sep other = false →
  String.prefix name other = false →
  under (posixpath.join dir name) (posixpath.join dir other) = false.
Proof.
  intros Hne Hrel Hend Hother Hpre. unfold under.
  rewrite dir_prefix_join by done. rewrite !join_relative by done.
  apply orb_false_intro.
  - apply String.eqb_neq. intros Heq. apply (inj (String.app _)) in Heq.
    subst other. rewrite <- (string_app_nil_r name) in Hpre at 2.
    by rewrite prefix_app in Hpre.
  - destruct (String.prefix ((dir_prefix dir +:+ name) +:+ "/") _) eqn:H;
      [|done].
    apply prefix_inv in H as [r Hr]. rewrite !string_app_assoc in Hr.
    apply (inj (String.app _)) in Hr. subst other.
    by rewrite prefix_app in Hpre.
Qed.

Lemma artifact_not_under_profiles (dir : string) :
  under (posixpath.join dir "profiles") (posixpath.join dir "Kofam.hmm") = false.
Proof. by apply not_under_join_sibling. Qed.

Lemma marker_under_profiles (dir : string) :
  under (posixpath.join dir "profiles") (posixpath.join dir "profiles/K00001.hmm")
  = true.
Proof. by apply (under_join_below dir "profiles" "K00001.hmm"). Qed.

Lemma filter_not_under_lookup (d p : string) (fs : FS) :
  filter (λ x : string * node, under d x.1 = false) fs !! p
  = if under d p then None else fs !! p.
Proof.
  rewrite map_lookup_filter. destruct (fs !! p) as [nd|] eqn:Hp; simpl.
  - destruct (under d p) eqn:Hu.
    + by rewrite option_guard_False by (simpl; congruence).
    + by rewrite option_guard_True.
  - by destruct (under d p).
Qed.

(** ** Running methods *)

Lemma bind_run {A B} (m : M A) (k : A → M B) (w : World) :
  (m ≫= k) w = match m w with
               | (w', Return a) => k a w'
               | (w', Raise e) => (w', Raise e)
               end.
Proof. reflexivity. Qed.

Lemma bind_assoc {A B C} (m : M A) (f : A → M B) (g : B → M C) (w : World) :
  ((m ≫= f) ≫= g) w = (m ≫= (λ a, f a ≫= g)) w.
Proof.
  rewrite !bind_run. destruct (m w) as [w1 [a|e]]; [|done].
  by rewrite bind_run.
Qed.

Lemma bind_Return {A B} (m : M A) (k : A → M B) w w' a :
  m w = (w', Return a) → (m ≫= k) w = k a w'.
Proof. intros H. by rewrite bind_run, H. Qed.

Lemma bind_Raise {A B} (m : M A) (k : A → M B) w w' e :
  m w = (w', Raise e) → (m ≫= k) w = (w', Raise e).
Proof. intros H. by rewrite bind_run, H. Qed.

Lemma bind_inv_Return {A B} (m : M A) (k : A → M B) w w' b :
  (m ≫= k) w = (w', Return b) →
  ∃ w1 a, m w = (w1, Return a) ∧ k a w1 = (w', Return b).
Proof.
  rewrite bind_run. destruct (m w) as [w1 [a|e]]; [|discriminate]. eauto.
Qed.

Lemma observe_run {A} (f : FS → outcome A) w : observe f w = (w, f (fs w)).
Proof. reflexivity. Qed.

Lemma mret_run {A} (a : A) (w : World) : (mret a : M A) w = (w, Return a).
Proof. reflexivity. Qed.

Lemma invoke_calls {A} c (f : FS → FS * outcome A) w :
  calls (invoke c f w).1 = calls w ++ [c].
Proof. unfold invoke. by destruct (f (fs w)). Qed.

Lemma invoke_fs {A} c (f : FS → FS * outcome A) w w' r :
  invoke c f w = (w', r) → f (fs w) = (fs w', r).
Proof.
  unfold invoke. destruct (f (fs w)) as [fs' r']. by intros [= <- <-].
Qed.

Lemma os_remove_run p w :
  invoke (CRemove p) (os_remove p) w =
  match fs w !! p with
  | Some File => ({| fs := delete p (fs w); calls := calls w ++ [CRemove p] |},
                  Return tt)
  | Some Dir => ({| fs := fs w; calls := calls w ++ [CRemove p] |},
                 Raise (IsADirectoryError p))
  | None => ({| fs := fs w; calls := calls w ++ [CRemove p] |},
             Raise (FileNotFoundError p))
  end.
Proof. unfold invoke, os_remove. by destruct (fs w !! p) as [[|]|]. Qed.

Lemma shutil_rmtree_run d w :
  invoke (CRmtree d) (shutil_rmtree d) w =
  match fs w !! d with
  | Some Dir => ({| fs := filter (λ x : string * node, under d x.1 = false) (fs w);
                    calls := calls w ++ [CRmtree d] |}, Return tt)
  | Some File => ({| fs := fs w; calls := calls w ++ [CRmtree d] |},
                  Raise (NotADirectoryError d))
  | None => ({| fs := fs w; calls := calls w ++ [CRmtree d] |},
             Raise (FileNotFoundError d))
  end.
Proof. unfold invoke, shutil_rmtree. by destruct (fs w !! d) as [[|]|]. Qed.

Lemma run_hmmpress_stages X env (self : KofamContext) (w : World) :
  run_hmmpress X env self w = (verify_and_concatenate X env self;; run_indexer X self) w.
Proof.
  unfold run_hmmpress, verify_and_concatenate.
  rewrite bind_assoc. rewrite !bind_run.
  destruct (observe (confirm_downloaded_files self) w) as [w1 [[]|e]]; [|done].
  rewrite bind_assoc. rewrite !bind_run. fold (concatenate X self).
  by destruct (concatenate X self w1) as [w2 [[]|e]].
Qed.

(** ** The skip list *)

Lemma dict_lookup_elem_of d k e : dict_lookup d k = Some e → (k, e) ∈ d.
Proof.
  induction d as [|[k' e'] d IH]; simpl; [discriminate|].
  destruct (String.eqb_spec k' k) as [->|Hne].
  - intros [= ->]. apply elem_of_cons. by left.
  - intros H. apply elem_of_cons. right. by apply IH.
Qed.

Lemma has_designated_columns_lookup d k e c :
  has_designated_columns d → dict_lookup d k = Some e →
  c ∈ col_names_to_check → is_Some (e !! c).
Proof.
  intros Hd He Hc. apply dict_lookup_elem_of in He.
  unfold has_designated_columns in Hd. rewrite Forall_forall in Hd.
  specialize (Hd _ He). rewrite Forall_forall in Hd. by apply Hd.
Qed.

Lemma py_eq_sentinel v : py_eq v (PyStr "-") = true ↔ v = PyStr "-".
Proof.
  destruct v as [|b|n|s]; simpl; try (split; [discriminate | congruence]).
  rewrite String.eqb_eq. split; congruence.
Qed.

Lemma sentinel_at_true e c : sentinel_at e c = true ↔ e !! c = Some (PyStr "-").
Proof.
  unfold sentinel_at. destruct (e !! c) as [v|].
  - rewrite py_eq_sentinel. split; congruence.
  - split; discriminate.
Qed.

Lemma list_contains_true l k : list_contains l k = true ↔ k ∈ l.
Proof.
  unfold list_contains. rewrite existsb_exists. split.
  - intros (x & Hx & Heq). apply String.eqb_eq in Heq. subst.
    by apply list_elem_of_In.
  - intros Hk. exists k. split; [by apply list_elem_of_In | apply String.eqb_refl].
Qed.

Lemma list_contains_false l k : list_contains l k = false ↔ k ∉ l.
Proof.
  rewrite <- list_contains_true. destruct (list_contains l k); split; congruence.
Qed.

Lemma dict_lookup_keys d k : k ∈ dict_keys d ↔ is_Some (dict_lookup d k).
Proof.
  unfold dict_keys. induction d as [|[k' e] d IH]; simpl.
  - split; [intros H; inversion H | intros [? ?]; discriminate].
  - rewrite elem_of_cons, IH. destruct (String.eqb_spec k' k) as [->|Hne].
    + split; eauto.
    + split; [intros [->|?]; [done | done] | by right].
Qed.

Lemma should_skip_loop_value d k e cols b :
  dict_lookup d k = Some e →
  should_skip_loop d k cols = Return b →
  b = forallb (sentinel_at e) cols.
Proof.
  intros He. induction cols as [|c cols IH]; simpl.
  - congruence.
  - unfold dict_getitem, entry_getitem, sentinel_at. rewrite He. simpl.
    destruct (e !! c) as [v|]; simpl; [|discriminate].
    destruct (py_eq v (PyStr "-")); simpl; [exact IH | congruence].
Qed.

Lemma should_skip_loop_defined d k e cols :
  dict_lookup d k = Some e →
  (∀ c, c ∈ cols → is_Some (e !! c)) →
  ∃ b, should_skip_loop d k cols = Return b.
Proof.
  intros He. induction cols as [|c cols IH]; simpl; intros Hcols.
  - eauto.
  - unfold dict_getitem, entry_getitem. rewrite He. simpl.
    destruct (Hcols c) as [v ->]; [apply elem_of_cons; by left|]. simpl.
    destruct (py_eq v (PyStr "-")); simpl; [|eauto].
    apply IH. intros c' Hc'. apply Hcols. apply elem_of_cons. by right.
Qed.

Lemma skip_list_loop_value d ks acc l :
  (∀ k, k ∈ ks → k ∈ dict_keys d) →
  skip_list_loop d ks acc = Return l →
  l = acc ++ List.filter (placeholder_only d) ks.
Proof.
  revert acc. induction ks as [|k ks IH]; cbn [skip_list_loop]; intros acc Hks Hrun.
  - rewrite app_nil_r. congruence.
  - destruct (proj1 (dict_lookup_keys d k)) as [e He];
      [apply Hks, elem_of_cons; by left|].
    destruct (should_skip_loop d k col_names_to_check) as [b|x] eqn:Hb;
      cbn in Hrun; [|discriminate].
    apply (should_skip_loop_value _ _ _ _ _ He) in Hb.
    apply IH in Hrun; [|intros k' Hk'; apply Hks, elem_of_cons; by right].
    cbn [List.filter]. unfold placeholder_only at 1. rewrite He, <- Hb.
    destruct b; [by rewrite <- app_assoc in Hrun | done].
Qed.

Lemma skip_list_loop_defined d ks acc :
  has_designated_columns d →
  (∀ k, k ∈ ks → k ∈ dict_keys d) →
  ∃ l, skip_list_loop d ks acc = Return l.
Proof.
  intros Hd. revert acc. induction ks as [|k ks IH]; cbn [skip_list_loop]; intros acc Hks.
  - eauto.
  - destruct (proj1 (dict_lookup_keys d k)) as [e He];
      [apply Hks, elem_of_cons; by left|].
    destruct (should_skip_loop_defined d k e col_names_to_check He) as [b ->];
      [intros c Hc; by eapply has_designated_columns_lookup|]. cbn.
    apply IH. intros k' Hk'. apply Hks, elem_of_cons. by right.
Qed.

Lemma get_ko_skip_list_filter d l :
  get_ko_skip_list d = Return l →
  l = List.filter (placeholder_only d) (dict_keys d).
Proof.
  intros Hrun. by apply (skip_list_loop_value d _ [] l) in Hrun.
Qed.

Lemma get_ko_skip_list_defined d :
  has_designated_columns d → ∃ l, get_ko_skip_list d = Return l.
Proof. intros Hd. by apply skip_list_loop_defined. Qed.

Lemma placeholder_only_true d k :
  placeholder_only d k = true ↔
  ∃ e, dict_lookup d k = Some e ∧
       ∀ c, c ∈ col_names_to_check → e !! c = Some (PyStr "-").
Proof.
  unfold placeholder_only. destruct (dict_lookup d k) as [e|].
  - rewrite forallb_forall. split.
    + intros H. exists e. split; [done|]. intros c Hc.
      apply sentinel_at_true, H. by apply list_elem_of_In.
    + intros (e' & [= <-] & H) c Hc.
      apply sentinel_at_true, H. by apply list_elem_of_In.
  - split; [discriminate | intros (e & ? & _); discriminate].
Qed.

Example get_ko_skip_list_example :
  get_ko_skip_list example_catalog = Return ["K14936"].
Proof. reflexivity. Qed.

Example get_ko_skip_list_one_real_value :
  get_ko_skip_list [("K14936", <["mlen" := PyStr "371"]> K14936_entry)]
  = Return [].
Proof. reflexivity. Qed.

(** C1.  Whenever [get_ko_skip_list] returns a skip list for a catalog, an
    identifier is in that list if and only if it has an entry in the
    catalog and each of the ten designated columns of the entry holds the
    sentinel "-"; and it does return one on every catalog whose entries
    carry the ten columns. *)
Theorem get_ko_skip_list_membership (d : catalog) :
  (has_designated_columns d → ∃ skip_list, get_ko_skip_list d = Return skip_list) ∧
  ∀ skip_list, get_ko_skip_list d = Return skip_list →
    ∀ k, k ∈ skip_list ↔
         ∃ e, dict_lookup d k = Some e ∧
              ∀ c, c ∈ col_names_to_check → e !! c = Some (PyStr "-").
Proof.
  split; [apply get_ko_skip_list_defined|].
  intros skip_list Hrun k. apply get_ko_skip_list_filter in Hrun. subst.
  rewrite <- placeholder_only_true, list_elem_of_In, filter_In.
  rewrite <- list_elem_of_In, dict_lookup_keys. split; [tauto|].
  intros H. split; [|done]. unfold placeholder_only in H.
  destruct (dict_lookup d k); [eauto | discriminate].
Qed.

Lemma get_ko_skip_list_membership_witness :
  (∃ skip_list, get_ko_skip_list example_catalog = Return skip_list) ∧
  ("K14936" ∈ ["K14936"] ↔
     ∃ e, dict_lookup example_catalog "K14936" = Some e ∧
          ∀ c, c ∈ col_names_to_check → e !! c = Some (PyStr "-")) ∧
  ("K00001" ∈ ["K14936"] ↔
     ∃ e, dict_lookup example_catalog "K00001" = Some e ∧
          ∀ c, c ∈ col_names_to_check → e !! c = Some (PyStr "-")).
Proof.
  destruct (get_ko_skip_list_membership example_catalog) as [Hdef Hmem].
  split; [|split].
  - apply Hdef. unfold has_designated_columns, example_catalog.
    repeat (apply Forall_cons; split); try apply Forall_nil;
      by (eexists; vm_compute; reflexivity).
  - apply (Hmem ["K14936"]). reflexivity.
  - apply (Hmem ["K14936"]). reflexivity.
Defined.

(** C7, as the claim states it, fails: a catalog read from a table that
    lacks a designated column makes the method raise [KeyError]. *)
Lemma get_ko_skip_list_not_total :
  get_ko_skip_list narrow_catalog = Raise (KeyError "score_type") ∧
  ¬ (∀ d : catalog, ∃ skip_list, get_ko_skip_list d = Return skip_list).
Proof.
  split; [reflexivity|].
  intros H. destruct (H narrow_catalog) as [l Hl]. discriminate Hl.
Qed.

(** C7 (amended).  [get_ko_skip_list] is a function of the catalog alone;
    it returns a skip list for every catalog whose entries all carry the
    ten designated columns, and the empty skip list for the empty
    catalog. *)
Theorem get_ko_skip_list_total (d : catalog) :
  has_designated_columns d →
  (∃ skip_list, get_ko_skip_list d = Return skip_list) ∧
  get_ko_skip_list [] = Return [].
Proof.
  intros Hd. split; [by apply get_ko_skip_list_defined | reflexivity].
Qed.

Lemma get_ko_skip_list_total_witness :
  (∃ skip_list, get_ko_skip_list example_catalog = Return skip_list) ∧
  get_ko_skip_list [] = Return [].
Proof.
  apply (get_ko_skip_list_total example_catalog).
  unfold has_designated_columns, example_catalog.
  repeat (apply Forall_cons; split); try apply Forall_nil;
    by (eexists; vm_compute; reflexivity).
Defined.

(** ** The completeness check *)

Section Confirm.

Variable self : KofamContext.
Variable fs : FS.

Local Abbreviation hmm_path k := (hmm_path_of (kofam_data_dir self) k).

Lemma confirm_loop_cons k ks :
  confirm_loop self fs (k :: ks) =
    if list_contains (ko_skip_list self) k then confirm_loop self fs ks
    else if os_path_exists fs (hmm_path k) then confirm_loop self fs ks
    else Raise (ConfigError (missing_profile_msg (hmm_path k))).
Proof.
  simpl. destruct (list_contains _ k); [done|]. simpl.
  by destruct (os_path_exists fs _).
Qed.

Lemma confirm_loop_Return ks :
  confirm_loop self fs ks = Return tt ↔ ∀ k, k ∈ ks → profile_present self fs k.
Proof.
  induction ks as [|k ks IH].
  - split; [intros _ k Hk; inversion Hk | done].
  - rewrite confirm_loop_cons. unfold profile_present in *.
    destruct (list_contains (ko_skip_list self) k) eqn:Hskip.
    + apply list_contains_true in Hskip. rewrite IH. split.
      * intros H k' [->|Hk']%elem_of_cons; [done | by apply H].
      * intros H k' Hk'. apply H, elem_of_cons. by right.
    + apply list_contains_false in Hskip.
      destruct (os_path_exists fs (hmm_path k)) eqn:Hex.
      * rewrite IH. split.
        -- intros H k' [->|Hk']%elem_of_cons; [done | by apply H].
        -- intros H k' Hk'. apply H, elem_of_cons. by right.
      * split; [discriminate|]. intros H.
        specialize (H k (list_elem_of_here _ _) Hskip). congruence.
Qed.

Lemma confirm_loop_Raise ks e :
  confirm_loop self fs ks = Raise e ↔
  ∃ k, first_missing self fs ks k ∧
       e = ConfigError (missing_profile_msg (hmm_path k)).
Proof.
  induction ks as [|k ks IH].
  - split; [discriminate|]. intros (k & (before & after & H & _) & _).
    by destruct before.
  - rewrite confirm_loop_cons.
    assert (Hstep : profile_present self fs k →
              (∃ k0, first_missing self fs (k :: ks) k0 ∧
                     e = ConfigError (missing_profile_msg (hmm_path k0))) ↔
              (∃ k0, first_missing self fs ks k0 ∧
                     e = ConfigError (missing_profile_msg (hmm_path k0)))).
    { intros Hk. split.
      - intros (k0 & (before & after & Heq & Hns & Hab & Hbef) & He).
        destruct before as [|b before]; simpl in Heq; simplify_eq.
        + unfold profile_present in Hk. specialize (Hk Hns). congruence.
        + exists k0. split; [|done]. exists before, after.
          repeat split; try done. intros k' Hk'. apply Hbef, elem_of_cons.
          by right.
      - intros (k0 & (before & after & Heq & Hns & Hab & Hbef) & He).
        exists k0. split; [|done]. exists (k :: before), after.
        repeat split; try done; [by rewrite Heq|].
        intros k' [->|Hk']%elem_of_cons; [done | by apply Hbef]. }
    destruct (list_contains (ko_skip_list self) k) eqn:Hskip.
    + apply list_contains_true in Hskip. rewrite IH. symmetry. apply Hstep.
      by intros ?.
    + apply list_contains_false in Hskip.
      destruct (os_path_exists fs (hmm_path k)) eqn:Hex.
      * rewrite IH. symmetry. apply Hstep. by intros _.
      * split.
        -- intros [= <-]. exists k. split; [|done]. exists [], ks.
           repeat split; try done. intros k' Hk'. inversion Hk'.
        -- intros (k0 & (before & after & Heq & Hns & Hab & Hbef) & ->).
           destruct before as [|b before]; simpl in Heq; simplify_eq; [done|].
           specialize (Hbef b (list_elem_of_here _ _) Hskip). congruence.
Qed.

End Confirm.

(** C2.  For every object and file system, [confirm_downloaded_files]
    returns if and only if the profile of every catalog identifier that is
    not in the skip list exists; otherwise it raises [ConfigError] for the
    first such identifier, in catalog order, whose profile is absent, and
    the message contains the path [profiles/<id>.hmm] under the data
    directory. *)
Theorem confirm_downloaded_files_complete (self : KofamContext) (fs : FS) :
  (confirm_downloaded_files self fs = Return tt ↔
     ∀ k, k ∈ dict_keys (ko_dict self) → k ∉ ko_skip_list self →
          os_path_exists fs (hmm_path_of (kofam_data_dir self) k) = true) ∧
  (∀ e, confirm_downloaded_files self fs = Raise e ↔
     ∃ k, first_missing self fs (dict_keys (ko_dict self)) k ∧
          e = ConfigError
                (missing_profile_msg (hmm_path_of (kofam_data_dir self) k))) ∧
  (∀ k, hmm_path_of (kofam_data_dir self) k
          = dir_prefix (kofam_data_dir self) +:+ "profiles/" +:+ k +:+ ".hmm" ∧
        ∃ pre post,
          missing_profile_msg (hmm_path_of (kofam_data_dir self) k)
          = pre +:+ hmm_path_of (kofam_data_dir self) k +:+ post).
Proof.
  split; [apply confirm_loop_Return|].
  split; [intros e; apply confirm_loop_Raise|].
  intros k. split; [apply hmm_path_of_eq|].
  unfold missing_profile_msg. eauto.
Qed.

(** ** The log of calls *)

Lemma emits_mret {A} P (a : A) : emits P (mret a).
Proof. intros w. exists []. by rewrite app_nil_r. Qed.

Lemma emits_raise {A} P e : emits P (@raise A e).
Proof. intros w. exists []. by rewrite app_nil_r. Qed.

Lemma emits_observe {A} P (f : FS → outcome A) : emits P (observe f).
Proof. intros w. exists []. by rewrite app_nil_r. Qed.

Lemma emits_invoke {A} (P : call → Prop) c (f : FS → FS * outcome A) :
  P c → emits P (invoke c f).
Proof.
  intros Hc w. exists [c]. unfold invoke. destruct (f (fs w)). simpl.
  split; [done|]. by apply Forall_singleton.
Qed.

Lemma emits_bind {A B} P (m : M A) (k : A → M B) :
  emits P m → (∀ a, emits P (k a)) → emits P (m ≫= k).
Proof.
  intros Hm Hk w. rewrite bind_run. destruct (Hm w) as (t1 & Ht1 & HP1).
  destruct (m w) as [w1 [a|e]]; simpl in Ht1.
  - destruct (Hk a w1) as (t2 & Ht2 & HP2). exists (t1 ++ t2).
    rewrite Ht2, Ht1, app_assoc. split; [done|]. by apply Forall_app.
  - by exists t1.
Qed.

Lemma emits_for_each {A} P (l : list A) (body : A → M unit) :
  (∀ x, emits P (body x)) → emits P (for_each l body).
Proof.
  intros Hbody. induction l as [|x l IH]; simpl.
  - apply emits_mret.
  - apply emits_bind; [apply Hbody | by intros _].
Qed.

Section Emits.

Variable X : Collaborators.
Variable env : Env.

Lemma download_emits self : emits (in_stage Download) (download X self).
Proof. apply emits_for_each. intros x. by apply emits_invoke. Qed.

Lemma decompress_files_emits self :
  emits (in_stage Decompress) (decompress_files X self).
Proof.
  apply emits_for_each. intros x. cbv beta zeta.
  destruct (endswith _ _); by apply emits_invoke.
Qed.

Lemma verify_and_concatenate_emits self :
  emits (in_stage Concatenate) (verify_and_concatenate X env self).
Proof.
  apply emits_bind; [apply emits_observe|]. intros _.
  apply emits_bind; [by apply emits_invoke|]. intros _.
  destruct (negb _); [by apply emits_invoke | apply emits_mret].
Qed.

Lemma run_indexer_emits self : emits (in_stage Index) (run_indexer X self).
Proof.
  apply emits_bind; [by apply emits_invoke|]. intros ret_val.
  destruct (negb _); [apply emits_raise | by apply emits_invoke].
Qed.

End Emits.

Lemma emits_in_last {A} P (m : M A) : emits P m → emits_in [P] m.
Proof.
  intros Hm w. destruct (Hm w) as (t & Ht & HP). exists [t]. simpl.
  rewrite app_nil_r. split; [done|]. by repeat constructor.
Qed.

Lemma emits_in_bind {A B} P Ps (m : M A) (k : A → M B) :
  emits P m → (∀ a, emits_in Ps (k a)) → emits_in (P :: Ps) (m ≫= k).
Proof.
  intros Hm Hk w. rewrite bind_run. destruct (Hm w) as (t & Ht & HP).
  destruct (m w) as [w1 [a|e]]; simpl in Ht.
  - destruct (Hk a w1) as (ts & Hts & HPs). exists (t :: ts). simpl.
    rewrite Hts, Ht, app_assoc. split; [done|]. by constructor.
  - exists (t :: map (λ _, []) Ps). simpl. split.
    + rewrite Ht. f_equal. clear. induction Ps; simpl; [by rewrite app_nil_r|].
      done.
    + constructor; [done|]. clear. induction Ps; simpl; by constructor.
Qed.

Lemma emits_in_ext {A} Ps (m m' : M A) :
  (∀ w, m' w = m w) → emits_in Ps m → emits_in Ps m'.
Proof. intros Heq Hm w. rewrite Heq. apply Hm. Qed.

Lemma setup_profiles_emits X env (self : KofamSetup) :
  emits_in [in_stage Download; in_stage Decompress;
            in_stage Concatenate; in_stage Index]
           (setup_profiles X env self).
Proof.
  apply emits_in_bind; [apply download_emits|]. intros _.
  apply emits_in_bind; [apply decompress_files_emits|]. intros _.
  apply (emits_in_ext _ _ _ (run_hmmpress_stages X env self)).
  apply emits_in_bind; [apply verify_and_concatenate_emits|]. intros _.
  apply emits_in_last, run_indexer_emits.
Qed.

(** ** The concatenation list *)

Lemma invoke_then_calls {A B} c (f : FS → FS * outcome A) (k : A → M B) w :
  (∀ a, emits (λ _, True) (k a)) →
  ∃ t, calls ((invoke c f ≫= k) w).1 = calls w ++ c :: t.
Proof.
  intros Hk. rewrite bind_run. pose proof (invoke_calls c f w) as Hc.
  destruct (invoke c f w) as [w1 [a|e]]; simpl in Hc.
  - destruct (Hk a w1) as (t & Ht & _). exists t.
    by rewrite Ht, Hc, <- app_assoc.
  - by exists [].
Qed.

Lemma hmm_list_filter (self : KofamContext) :
  hmm_list self =
  hmm_path_of (kofam_data_dir self) <$>
    List.filter (λ k, bool_decide (k ∉ ko_skip_list self))
                (dict_keys (ko_dict self)).
Proof.
  unfold hmm_list. f_equal. apply List.filter_ext. intros k.
  destruct (list_contains (ko_skip_list self) k) eqn:Hk; simpl; symmetry.
  - apply list_contains_true in Hk. by apply bool_decide_eq_false; intros ?.
  - apply list_contains_false in Hk. by apply bool_decide_eq_true.
Qed.

Example hmm_list_example :
  hmm_list example_context = ["/data/KEGG/profiles/K00001.hmm"].
Proof. reflexivity. Qed.

(** C3.  The list of files that [run_hmmpress] hands to the concatenation
    consists of the profile paths of the catalog identifiers that are not
    in the skip list, in catalog order; the path of a skip-listed
    identifier is never in it; and the list does not depend on the file
    system: whenever the check passes, it is this list that is
    concatenated. *)
Theorem hmm_list_non_skip (X : Collaborators) (env : Env) (self : KofamContext) :
  hmm_list self =
    hmm_path_of (kofam_data_dir self) <$>
      List.filter (λ k, bool_decide (k ∉ ko_skip_list self))
                  (dict_keys (ko_dict self)) ∧
  (∀ k, k ∈ ko_skip_list self →
        hmm_path_of (kofam_data_dir self) k ∉ hmm_list self) ∧
  (∀ w, confirm_downloaded_files self (fs w) = Return tt →
        ∃ t, calls (run_hmmpress X env self w).1 =
             calls w ++
             CConcatenateFiles (kofam_hmm_file_path self) (hmm_list self) false :: t).
Proof.
  split; [apply hmm_list_filter|]. split.
  - intros k Hk Hin. rewrite hmm_list_filter in Hin.
    apply list_elem_of_fmap in Hin as (k' & Heq & Hk').
    apply hmm_path_of_inj in Heq. subst k'.
    apply list_elem_of_In, filter_In in Hk' as [_ Hk'].
    by apply bool_decide_eq_true in Hk'.
  - intros w Hc. unfold run_hmmpress. rewrite bind_run.
    unfold observe at 1. rewrite Hc. apply invoke_then_calls. intros _.
    apply emits_bind.
    { destruct (negb _); [by apply emits_invoke | apply emits_mret]. }
    intros _. apply emits_bind; [by apply emits_invoke|]. intros ret_val.
    destruct (negb _); [apply emits_raise | by apply emits_invoke].
Qed.

(** ** The driver *)

Lemma for_each_calls {A} (c : A → call) (body : A → M unit) l w w' :
  (∀ x w0, calls (body x w0).1 = calls w0 ++ [c x]) →
  for_each l body w = (w', Return tt) →
  calls w' = calls w ++ (c <$> l).
Proof.
  intros Hbody. revert w. induction l as [|x l IH]; intros w Hrun; simpl in *.
  - rewrite mret_run in Hrun. injection Hrun as <-. by rewrite app_nil_r.
  - apply bind_inv_Return in Hrun as (w1 & [] & Hx & Hrest).
    rewrite (IH _ Hrest). pose proof (Hbody x w) as Hc. rewrite Hx in Hc.
    simpl in Hc. by rewrite Hc, <- app_assoc.
Qed.

Lemma download_calls X (self : KofamSetup) w w1 :
  download X self w = (w1, Return tt) →
  calls w1 = calls w ++ (download_call self <$> files self).
Proof. apply for_each_calls. intros x w0. apply invoke_calls. Qed.

Lemma decompress_files_calls X (self : KofamSetup) w w1 :
  decompress_files X self w = (w1, Return tt) →
  calls w1 = calls w ++ (decompress_call self <$> files self).
Proof.
  apply for_each_calls. intros x w0. unfold decompress_call. cbv zeta.
  destruct (endswith _ _); apply invoke_calls.
Qed.

Lemma verify_and_concatenate_calls X env (self : KofamContext) w w1 :
  verify_and_concatenate X env self w = (w1, Return tt) →
  calls w1 = calls w ++
    [CConcatenateFiles (kofam_hmm_file_path self) (hmm_list self) false] ++
    (if DEBUG env then [] else [CRmtree (profiles_dir self)]).
Proof.
  unfold verify_and_concatenate. intros Hrun.
  apply bind_inv_Return in Hrun as (w0 & [] & Hobs & Hrun).
  rewrite observe_run in Hobs. injection Hobs as <- _.
  apply bind_inv_Return in Hrun as (w2 & [] & Hcat & Hrm).
  pose proof (invoke_calls
    (CConcatenateFiles (kofam_hmm_file_path self) (hmm_list self) false)
    (concatenate_files X (kofam_hmm_file_path self) (hmm_list self) false) w)
    as Hc.
  unfold concatenate in Hcat. rewrite Hcat in Hc. simpl in Hc.
  destruct (DEBUG env); simpl in Hrm.
  - rewrite mret_run in Hrm. injection Hrm as <-. by rewrite Hc.
  - pose proof (invoke_calls (CRmtree (profiles_dir self))
                  (shutil_rmtree (profiles_dir self)) w2) as Hc2.
    rewrite Hrm in Hc2. simpl in Hc2. by rewrite Hc2, Hc, <- app_assoc.
Qed.

Lemma run_indexer_calls X (self : KofamContext) w w1 :
  run_indexer X self w = (w1, Return tt) →
  calls w1 = calls w ++
    [CRunCommand ["hmmpress"; kofam_hmm_file_path self] (log_file_path_of self);
     CRemove (log_file_path_of self)].
Proof.
  unfold run_indexer. intros Hrun.
  apply bind_inv_Return in Hrun as (w2 & ret_val & Hpress & Hrest).
  pose proof (invoke_calls
    (CRunCommand ["hmmpress"; kofam_hmm_file_path self] (log_file_path_of self))
    (run_command X ["hmmpress"; kofam_hmm_file_path self] (log_file_path_of self))
    w) as Hc.
  unfold hmmpress in Hpress. rewrite Hpress in Hc. simpl in Hc.
  destruct (negb (Z.eqb ret_val 0)); [discriminate|].
  pose proof (invoke_calls (CRemove (log_file_path_of self))
                (os_remove (log_file_path_of self)) w2) as Hc2.
  rewrite Hrest in Hc2. simpl in Hc2. by rewrite Hc2, Hc, <- app_assoc.
Qed.

(** C5.  [setup_profiles] runs the stages in the order download,
    decompress, verify, concatenate, index: the calls it adds to the log
    are download calls, then decompression calls, then the concatenation
    (and clean-up), then the indexer (and the removal of its log), and a
    run that returns has made all of them, once each.  A stage
    that raises ends the run with that exception and the world it left.
    When the check of the downloaded files raises, the world is the one
    the decompression left: nothing is concatenated and the indexer is not
    called. *)
Theorem setup_profiles_sequence (X : Collaborators) (env : Env)
  (self : KofamSetup) (w : World) :
  (∃ t1 t2 t3 t4,
     calls (setup_profiles X env self w).1 = calls w ++ t1 ++ t2 ++ t3 ++ t4 ∧
     Forall (in_stage Download) t1 ∧ Forall (in_stage Decompress) t2 ∧
     Forall (in_stage Concatenate) t3 ∧ Forall (in_stage Index) t4) ∧
  (∀ w1 e,
     download X self w = (w1, Raise e) →
     setup_profiles X env self w = (w1, Raise e)) ∧
  (∀ w1 w2 e,
     download X self w = (w1, Return tt) →
     decompress_files X self w1 = (w2, Raise e) →
     setup_profiles X env self w = (w2, Raise e)) ∧
  (∀ w1 w2 e,
     download X self w = (w1, Return tt) →
     decompress_files X self w1 = (w2, Return tt) →
     confirm_downloaded_files self (fs w2) = Raise e →
     setup_profiles X env self w = (w2, Raise e) ∧
     ∃ t1 t2, calls w2 = calls w ++ t1 ++ t2 ∧
              Forall (in_stage Download) t1 ∧ Forall (in_stage Decompress) t2) ∧
  (∀ w1 w2 w3 e,
     download X self w = (w1, Return tt) →
     decompress_files X self w1 = (w2, Return tt) →
     verify_and_concatenate X env self w2 = (w3, Raise e) →
     setup_profiles X env self w = (w3, Raise e) ∧
     ∃ t, calls w3 = calls w2 ++ t ∧ Forall (in_stage Concatenate) t) ∧
  (∀ w1 w2 w3,
     download X self w = (w1, Return tt) →
     decompress_files X self w1 = (w2, Return tt) →
     verify_and_concatenate X env self w2 = (w3, Return tt) →
     setup_profiles X env self w = run_indexer X self w3) ∧
  (∀ w',
     setup_profiles X env self w = (w', Return tt) →
     calls w' = calls w ++ complete_run_calls env self).
Proof.
  split; [|split; [|split; [|split; [|split; [|split]]]]].
  - destruct (setup_profiles_emits X env self w) as (ts & Hts & HPs).
    destruct ts as [|t1 [|t2 [|t3 [|t4 [|? ?]]]]];
      repeat match goal with
        | H : Forall2 _ _ _ |- _ => inversion H; clear H; subst
        end.
    exists t1, t2, t3, t4. simpl in Hts. by rewrite app_nil_r in Hts.
  - intros w1 e Hd. unfold setup_profiles. by rewrite (bind_Raise _ _ _ _ _ Hd).
  - intros w1 w2 e Hd Hz. unfold setup_profiles.
    rewrite (bind_Return _ _ _ _ _ Hd). by rewrite (bind_Raise _ _ _ _ _ Hz).
  - intros w1 w2 e Hd Hz Hcheck. split.
    + unfold setup_profiles.
      rewrite (bind_Return _ _ _ _ _ Hd), (bind_Return _ _ _ _ _ Hz).
      unfold run_hmmpress. rewrite bind_run, observe_run. by rewrite Hcheck.
    + destruct (download_emits X self w) as (t1 & Ht1 & HP1).
      destruct (decompress_files_emits X self w1) as (t2 & Ht2 & HP2).
      rewrite Hd in Ht1. rewrite Hz in Ht2. simpl in *.
      exists t1, t2. by rewrite Ht2, Ht1, app_assoc.
  - intros w1 w2 w3 e Hd Hz Hv. split.
    + unfold setup_profiles.
      rewrite (bind_Return _ _ _ _ _ Hd), (bind_Return _ _ _ _ _ Hz).
      rewrite run_hmmpress_stages. by rewrite (bind_Raise _ _ _ _ _ Hv).
    + destruct (verify_and_concatenate_emits X env self w2) as (t & Ht & HP).
      rewrite Hv in Ht. by exists t.
  - intros w1 w2 w3 Hd Hz Hv. unfold setup_profiles.
    rewrite (bind_Return _ _ _ _ _ Hd), (bind_Return _ _ _ _ _ Hz).
    rewrite run_hmmpress_stages. by rewrite (bind_Return _ _ _ _ _ Hv).
  - intros w' Hrun. unfold setup_profiles in Hrun.
    apply bind_inv_Return in Hrun as (w1 & [] & Hd & Hrun).
    apply bind_inv_Return in Hrun as (w2 & [] & Hz & Hrun).
    rewrite run_hmmpress_stages in Hrun.
    apply bind_inv_Return in Hrun as (w3 & [] & Hv & Hi).
    apply download_calls in Hd. apply decompress_files_calls in Hz.
    apply verify_and_concatenate_calls in Hv. apply run_indexer_calls in Hi.
    unfold complete_run_calls. rewrite Hi, Hv, Hz, Hd.
    by rewrite <- !app_assoc.
Qed.

(** The end-to-end scenario with the two-entry catalog and an archive that
    holds K00001.hmm only: the run returns, one file is concatenated and
    the indexer is called once. *)
Example setup_profiles_complete_archive :
  let r := setup_profiles (sim complete_site) normal_env example_setup
                          fresh_world in
  r.2 = Return tt ∧
  calls r.1 =
    [CDownloadFile "ftp://ftp.genome.jp/pub/db/kofam/ko_list.gz"
                   "/data/KEGG/ko_list.gz";
     CDownloadFile "ftp://ftp.genome.jp/pub/db/kofam/profiles.tar.gz"
                   "/data/KEGG/profiles.tar.gz";
     CGzipDecompressFile "/data/KEGG/ko_list.gz" false;
     CTarExtractFile "/data/KEGG/profiles.tar.gz" "/data/KEGG" false;
     CConcatenateFiles "/data/KEGG/Kofam.hmm"
                       ["/data/KEGG/profiles/K00001.hmm"] false;
     CRmtree "/data/KEGG/profiles";
     CRunCommand ["hmmpress"; "/data/KEGG/Kofam.hmm"]
                 "/data/KEGG/00_hmmpress_log.txt";
     CRemove "/data/KEGG/00_hmmpress_log.txt"].
Proof. split; vm_compute; reflexivity. Qed.

(** The end-to-end scenario in which the archive lacks K00001.hmm. *)
Lemma setup_profiles_sequence_witness :
  ∃ w2,
    setup_profiles (sim incomplete_site) normal_env example_setup fresh_world
    = (w2, Raise (ConfigError
                    (missing_profile_msg "/data/KEGG/profiles/K00001.hmm"))) ∧
    os_path_exists (fs w2) "/data/KEGG/Kofam.hmm" = false ∧
    Forall (λ c, stage_of c = Download ∨ stage_of c = Decompress) (calls w2).
Proof.
  pose (w1 := (download (sim incomplete_site) example_setup fresh_world).1).
  pose (w2 := (decompress_files (sim incomplete_site) example_setup w1).1).
  destruct (setup_profiles_sequence (sim incomplete_site) normal_env
              example_setup fresh_world) as (_ & _ & _ & Hverify & _).
  destruct (Hverify w1 w2
              (ConfigError (missing_profile_msg "/data/KEGG/profiles/K00001.hmm")))
    as [Hrun _]; [vm_compute; reflexivity..|].
  exists w2. split; [exact Hrun|]. split; [vm_compute; reflexivity|].
  vm_compute. repeat (constructor; [first [by left | by right]|]). constructor.
Defined.

(** ** The indexer and the clean-up *)

(** C6.  Once the check, the concatenation and the clean-up are done and
    the indexer has run: if its exit status is not zero, [run_hmmpress]
    raises [ConfigError] with a message that contains the path of the log
    file, in the world the indexer left (nothing is removed); if it is
    zero, the log file is removed, so that no file is left at its path. *)
Theorem run_hmmpress_indexer_result (X : Collaborators) (env : Env)
  (self : KofamContext) (w w2 w3 : World) (ret_val : Z) :
  verify_and_concatenate X env self w = (w2, Return tt) →
  hmmpress X self w2 = (w3, Return ret_val) →
  (ret_val ≠ 0%Z →
     run_hmmpress X env self w
     = (w3, Raise (ConfigError (hmmpress_failed_msg (log_file_path_of self)))) ∧
     ∃ pre post,
       hmmpress_failed_msg (log_file_path_of self)
       = pre +:+ log_file_path_of self +:+ post) ∧
  (ret_val = 0%Z →
     fs (run_hmmpress X env self w).1 !! log_file_path_of self ≠ Some File ∧
     (fs w3 !! log_file_path_of self = Some File →
      run_hmmpress X env self w
      = ({| fs := delete (log_file_path_of self) (fs w3);
            calls := calls w3 ++ [CRemove (log_file_path_of self)] |},
         Return tt))).
Proof.
  intros Hv Hh.
  assert (Hrun : run_hmmpress X env self w =
                 (if negb (Z.eqb ret_val 0)
                  then raise (ConfigError (hmmpress_failed_msg (log_file_path_of self)))
                  else invoke (CRemove (log_file_path_of self))
                              (os_remove (log_file_path_of self))) w3).
  { rewrite run_hmmpress_stages, (bind_Return _ _ _ _ _ Hv).
    unfold run_indexer. by rewrite (bind_Return _ _ _ _ _ Hh). }
  split.
  - intros Hne. apply Z.eqb_neq in Hne. rewrite Hne in Hrun. split; [done|].
    unfold hmmpress_failed_msg. eauto.
  - intros ->. simpl in Hrun. rewrite Hrun, os_remove_run.
    destruct (fs w3 !! log_file_path_of self) as [[|]|] eqn:Hlog; simpl.
    + split; [by rewrite lookup_delete_eq | done].
    + split; [by rewrite Hlog | done].
    + split; [by rewrite Hlog | done].
Qed.

Lemma run_hmmpress_indexer_result_witness :
  (∃ w3,
     run_hmmpress (sim failing_hmmpress_site) normal_env example_context
                  extracted_world
     = (w3, Raise (ConfigError
                     (hmmpress_failed_msg "/data/KEGG/00_hmmpress_log.txt"))) ∧
     fs w3 !! "/data/KEGG/00_hmmpress_log.txt" = Some File) ∧
  (∃ w4,
     run_hmmpress (sim complete_site) normal_env example_context extracted_world
     = (w4, Return tt) ∧
     fs w4 !! "/data/KEGG/00_hmmpress_log.txt" = None).
Proof.
  split.
  - pose (w2 := (verify_and_concatenate (sim failing_hmmpress_site) normal_env
                   example_context extracted_world).1).
    pose (w3 := (hmmpress (sim failing_hmmpress_site) example_context w2).1).
    destruct (run_hmmpress_indexer_result (sim failing_hmmpress_site) normal_env
                example_context extracted_world w2 w3 1)
      as [Hfail _]; [vm_compute; reflexivity..|].
    destruct Hfail as [Hrun _]; [lia|].
    exists w3. split; [exact Hrun | vm_compute; reflexivity].
  - pose (w2 := (verify_and_concatenate (sim complete_site) normal_env
                   example_context extracted_world).1).
    pose (w3 := (hmmpress (sim complete_site) example_context w2).1).
    destruct (run_hmmpress_indexer_result (sim complete_site) normal_env
                example_context extracted_world w2 w3 0)
      as [_ Hok]; [vm_compute; reflexivity..|].
    destruct Hok as [_ Hrun]; [lia|].
    eexists. split; [apply Hrun; vm_compute; reflexivity|].
    vm_compute. reflexivity.
Defined.

(** C8.  For an object as the constructor builds it, once the check has
    passed and the concatenation has returned: with the debug override the
    indexer is started in the very world the concatenation left, so the
    profiles and the compiled artifact are untouched; without it the
    profiles directory is removed with everything below it (no directory
    is left at its path), and nothing else, in particular not the compiled
    artifact, is touched. *)
Theorem run_hmmpress_cleanup (X : Collaborators) (env : Env)
  (self : KofamContext) (w w1 : World) :
  kofam_hmm_file_path self = posixpath.join (kofam_data_dir self) "Kofam.hmm" →
  confirm_downloaded_files self (fs w) = Return tt →
  concatenate X self w = (w1, Return tt) →
  (DEBUG env = true →
     verify_and_concatenate X env self w = (w1, Return tt) ∧
     run_hmmpress X env self w = run_indexer X self w1) ∧
  (DEBUG env = false →
     (∀ w2 r, verify_and_concatenate X env self w = (w2, r) →
        fs w2 !! kofam_hmm_file_path self = fs w1 !! kofam_hmm_file_path self ∧
        (∀ p, under (profiles_dir self) p = false → fs w2 !! p = fs w1 !! p) ∧
        fs w2 !! profiles_dir self ≠ Some Dir) ∧
     (fs w1 !! profiles_dir self = Some Dir →
        ∃ w2, verify_and_concatenate X env self w = (w2, Return tt) ∧
              run_hmmpress X env self w = run_indexer X self w2 ∧
              ∀ p, under (profiles_dir self) p = true → fs w2 !! p = None)).
Proof.
  intros Hpath Hcheck Hcat.
  assert (Hvc : verify_and_concatenate X env self w =
                (if negb (DEBUG env)
                 then invoke (CRmtree (profiles_dir self))
                             (shutil_rmtree (profiles_dir self))
                 else mret tt) w1).
  { unfold verify_and_concatenate. rewrite bind_run, observe_run, Hcheck.
    by rewrite (bind_Return _ _ _ _ _ Hcat). }
  split; intros Hdebug; rewrite Hdebug in Hvc; simpl in Hvc.
  - split; [exact Hvc|].
    by rewrite run_hmmpress_stages, (bind_Return _ _ _ _ _ Hvc).
  - rewrite shutil_rmtree_run in Hvc. split.
    + intros w2 r Hrun. rewrite Hvc in Hrun.
      assert (Hframe : ∀ p, under (profiles_dir self) p = false →
                            fs w2 !! p = fs w1 !! p).
      { intros p Hp.
        destruct (fs w1 !! profiles_dir self) as [[|]|]; simplify_eq; simpl;
          try done.
        by rewrite filter_not_under_lookup, Hp. }
      split; [|split; [exact Hframe|]].
      * apply Hframe. rewrite Hpath. apply artifact_not_under_profiles.
      * destruct (fs w1 !! profiles_dir self) as [[|]|] eqn:Hdir;
          simplify_eq; simpl; try by rewrite Hdir.
        rewrite filter_not_under_lookup. unfold under.
        by rewrite String.eqb_refl.
    + intros Hdir. rewrite Hdir in Hvc. eexists. split; [exact Hvc|]. split.
      * by rewrite run_hmmpress_stages, (bind_Return _ _ _ _ _ Hvc).
      * intros p Hp. simpl. by rewrite filter_not_under_lookup, Hp.
Qed.

Lemma run_hmmpress_cleanup_witness :
  (∃ w2,
     verify_and_concatenate (sim complete_site) normal_env example_context
                            extracted_world = (w2, Return tt) ∧
     fs w2 !! "/data/KEGG/profiles" = None ∧
     fs w2 !! "/data/KEGG/profiles/K00001.hmm" = None ∧
     fs w2 !! "/data/KEGG/Kofam.hmm" = Some File) ∧
  (∃ w1,
     verify_and_concatenate (sim complete_site) debug_env example_context
                            extracted_world = (w1, Return tt) ∧
     fs w1 !! "/data/KEGG/profiles/K00001.hmm" = Some File ∧
     fs w1 !! "/data/KEGG/Kofam.hmm" = Some File).
Proof.
  pose (w1 := (concatenate (sim complete_site) example_context extracted_world).1).
  split.
  - destruct (run_hmmpress_cleanup (sim complete_site) normal_env example_context
                extracted_world w1) as [_ Hnormal]; [vm_compute; reflexivity..|].
    destruct Hnormal as [Hkeep Hgone]; [reflexivity|].
    destruct Hgone as (w2 & Hrun & _ & Hgone); [vm_compute; reflexivity|].
    exists w2. split; [exact Hrun|]. split; [|split].
    + apply Hgone. vm_compute. reflexivity.
    + apply Hgone. vm_compute. reflexivity.
    + destruct (Hkeep w2 (Return tt) Hrun) as [Hartifact _].
      etransitivity; [exact Hartifact|]. vm_compute. reflexivity.
  - destruct (run_hmmpress_cleanup (sim complete_site) debug_env example_context
                extracted_world w1) as [Hdebug _]; [vm_compute; reflexivity..|].
    destruct Hdebug as [Hrun _]; [reflexivity|].
    exists w1. split; [exact Hrun|]. split; vm_compute; reflexivity.
Defined.

(** ** The marker of an installation *)

(** C9.  After a run of [run_hmmpress] that returns, without the debug
    override and with an indexer that leaves the profiles directory alone,
    the marker [profiles/K00001.hmm] does not exist, and the existence
    guard of a later construction on the same data directory does not
    raise. *)
Theorem run_hmmpress_removes_marker (X : Collaborators) (env : Env)
  (self : KofamContext) (w w' : World) :
  DEBUG env = false →
  indexer_leaves_profiles_absent X self →
  run_hmmpress X env self w = (w', Return tt) →
  os_path_exists (fs w')
    (posixpath.join (kofam_data_dir self) "profiles/K00001.hmm") = false ∧
  ∀ next : KofamContext,
    kofam_data_dir next = kofam_data_dir self →
    is_database_exists next (fs w') = Return tt.
Proof.
  intros Hdebug Hindexer Hrun.
  assert (Hgone : fs w' !! posixpath.join (kofam_data_dir self)
                                          "profiles/K00001.hmm" = None).
  { rewrite run_hmmpress_stages in Hrun.
    apply bind_inv_Return in Hrun as (w2 & [] & Hvc & Hidx).
    unfold verify_and_concatenate in Hvc.
    apply bind_inv_Return in Hvc as (w0 & [] & _ & Hvc).
    apply bind_inv_Return in Hvc as (w1 & [] & _ & Hrm).
    rewrite Hdebug in Hrm. simpl in Hrm. rewrite shutil_rmtree_run in Hrm.
    assert (Hw2 : fs w2 !! posixpath.join (kofam_data_dir self)
                                          "profiles/K00001.hmm" = None).
    { destruct (fs w1 !! profiles_dir self) as [[|]|]; simplify_eq. simpl.
      rewrite filter_not_under_lookup.
      unfold profiles_dir. by rewrite marker_under_profiles. }
    unfold run_indexer in Hidx.
    apply bind_inv_Return in Hidx as (w3 & ret_val & Hpress & Hrest).
    apply invoke_fs in Hpress.
    assert (Hw3 : fs w3 !! posixpath.join (kofam_data_dir self)
                                          "profiles/K00001.hmm" = None).
    { change (fs w3) with (fs w3, Return ret_val : outcome Z).1.
      rewrite <- Hpress. apply Hindexer; [|done].
      apply marker_under_profiles. }
    destruct (negb (Z.eqb ret_val 0)); [discriminate|].
    rewrite os_remove_run in Hrest.
    destruct (fs w3 !! log_file_path_of self) as [[|]|]; simplify_eq. simpl.
    apply lookup_delete_None. by right. }
  split.
  - unfold os_path_exists. by rewrite Hgone.
  - intros next Hdir. unfold is_database_exists, os_path_exists.
    by rewrite Hdir, Hgone.
Qed.

Lemma run_hmmpress_removes_marker_witness :
  ∃ w',
    run_hmmpress (sim complete_site) normal_env example_context extracted_world
    = (w', Return tt) ∧
    os_path_exists (fs w') "/data/KEGG/profiles/K00001.hmm" = false ∧
    is_database_exists example_context (fs w') = Return tt.
Proof.
  pose (w' := (run_hmmpress (sim complete_site) normal_env example_context
                 extracted_world).1).
  assert (Hrun : run_hmmpress (sim complete_site) normal_env example_context
                   extracted_world = (w', Return tt))
    by (vm_compute; reflexivity).
  destruct (run_hmmpress_removes_marker (sim complete_site) normal_env
              example_context extracted_world w') as [Hgone Hguard].
  - reflexivity.
  - intros fs p Hunder Hp. simpl.
    rewrite !lookup_insert_ne; [done|intros <-; vm_compute in Hunder; done..].
  - exact Hrun.
  - exists w'. split; [exact Hrun|]. split; [exact Hgone|]. by apply Hguard.
Defined.

(** ** Construction *)

Lemma KofamContext_init_inv X env args w w1 self :
  KofamContext_init X env args w = (w1, Return self) →
  as_path (py_or (A args "kofam_data_dir") (PyStr (default_kofam_data_dir env)))
  = Return (kofam_data_dir self) ∧
  kofam_hmm_file_path self = posixpath.join (kofam_data_dir self) "Kofam.hmm" ∧
  ko_list_file_path self = posixpath.join (kofam_data_dir self) "ko_list" ∧
  get_ko_skip_list (ko_dict self) = Return (ko_skip_list self) ∧
  calls w1 = calls w ++ [CGetTable (ko_list_file_path self)].
Proof.
  unfold KofamContext_init. intros Hrun.
  apply bind_inv_Return in Hrun as (w0 & dir & Hdir & Hrun).
  apply bind_inv_Return in Hrun as (w0' & d & Hload & Hrun).
  apply bind_inv_Return in Hrun as (w0'' & skip & Hskip & Hrun).
  unfold observe in Hdir, Hskip. rewrite mret_run in Hrun. simplify_eq.
  simpl in *.
  pose proof (invoke_calls (CGetTable (posixpath.join dir "ko_list"))
                (get_TAB_delimited_file_as_dictionary X (posixpath.join dir "ko_list"))
                w0) as Hcalls.
  rewrite Hload in Hcalls. simpl in Hcalls. by rewrite Hcalls.
Qed.

Lemma sim_gen_output_directory_clears site :
  gen_output_directory_clears (sim site).
Proof.
  intros dir flag fs fs' Hflag Hgen p Hunder Hne. simpl in Hgen.
  rewrite Hflag in Hgen. injection Hgen as <-.
  rewrite lookup_insert_ne by done. unfold clear_dir.
  by rewrite filter_not_under_lookup, Hunder.
Qed.

(** C4.  In a construction that has loaded the catalog and found the
    hmmpress program: without the reset option and without the debug
    override, an existing marker [profiles/K00001.hmm] makes the
    construction raise [ConfigError] with the message that names --reset,
    and up to then only the table was read and the program looked up (no
    directory was prepared, nothing was downloaded); with the reset option
    the marker is not looked at, the data directory is prepared with
    [delete_if_exists] set, and a construction that returns leaves nothing
    below the data directory. *)
Theorem KofamSetup_init_guard (X : Collaborators) (env : Env)
  (args : Namespace) (w w1 w2 : World) (self : KofamContext) (reset : pyval) :
  KofamContext_init X env args w = (w1, Return self) →
  invoke (CIsProgramExists "hmmpress") (is_program_exists X "hmmpress") w1
  = (w2, Return tt) →
  args !! "reset" = Some reset →
  (py_truthy reset = false → DEBUG env = false →
   os_path_exists (fs w2)
     (posixpath.join (kofam_data_dir self) "profiles/K00001.hmm") = true →
   KofamSetup_init X env args w
   = (w2, Raise (ConfigError (already_installed_msg (kofam_data_dir self)))) ∧
   calls w2 = calls w ++ [CGetTable (ko_list_file_path self);
                          CIsProgramExists "hmmpress"] ∧
   ∃ pre post,
     already_installed_msg (kofam_data_dir self) = pre +:+ "--reset" +:+ post) ∧
  (py_truthy reset = true →
   (∀ w3 r,
      invoke (CGenOutputDirectory (kofam_data_dir self) reset)
             (gen_output_directory X (kofam_data_dir self) reset) w2 = (w3, r) →
      KofamSetup_init X env args w
      = (w3, match r with
             | Return _ => Return (constructed self args)
             | Raise e => Raise e
             end)) ∧
   (gen_output_directory_clears X →
    ∀ w3 setup,
      KofamSetup_init X env args w = (w3, Return setup) →
      ∀ p, under (kofam_data_dir self) p = true → p ≠ kofam_data_dir self →
           fs w3 !! p = None)).
Proof.
  intros Hinit Hprog Hreset.
  assert (Hattr : getattr args "reset" = Return reset)
    by (unfold getattr; by rewrite Hreset).
  assert (Hrun : KofamSetup_init X env args w =
    ((if negb (py_truthy reset) && negb (DEBUG env)
      then observe (is_database_exists self) else mret tt);;
     invoke (CGenOutputDirectory (kofam_data_dir self) reset)
            (gen_output_directory X (kofam_data_dir self) reset);;
     mret (constructed self args)) w2).
  { unfold KofamSetup_init.
    rewrite (bind_Return _ _ _ _ _ Hinit), (bind_Return _ _ _ _ _ Hprog).
    rewrite bind_run. unfold observe at 1. cbv beta. rewrite Hattr.
    rewrite !(bind_run _ _ w2). destruct (_ w2) as [w2' [[]|e]]; [|done].
    rewrite bind_run. by unfold observe at 1. }
  split.
  - intros Hfalse Hdebug Hmarker. rewrite Hfalse, Hdebug in Hrun. simpl in Hrun.
    rewrite bind_run, observe_run in Hrun.
    unfold is_database_exists in Hrun. rewrite Hmarker in Hrun.
    split; [exact Hrun|]. split.
    + apply KofamContext_init_inv in Hinit as (_ & _ & _ & _ & Hcalls).
      pose proof (invoke_calls (CIsProgramExists "hmmpress")
                    (is_program_exists X "hmmpress") w1) as Hcalls2.
      rewrite Hprog in Hcalls2. simpl in Hcalls2.
      by rewrite Hcalls2, Hcalls, <- app_assoc.
    + unfold already_installed_msg.
      exists ("It seems you already have KOfam HMM profiles installed in '"
              +:+ kofam_data_dir self +:+ "', please use "),
             " flag if you want to re-download it.".
      by rewrite !string_app_assoc.
  - intros Htrue. rewrite Htrue in Hrun. simpl in Hrun.
    rewrite bind_run, mret_run, bind_run in Hrun.
    assert (Hstep : ∀ w3 r,
      invoke (CGenOutputDirectory (kofam_data_dir self) reset)
             (gen_output_directory X (kofam_data_dir self) reset) w2 = (w3, r) →
      KofamSetup_init X env args w
      = (w3, match r with
             | Return _ => Return (constructed self args)
             | Raise e => Raise e
             end)).
    { intros w3 r Hgen. rewrite Hrun, Hgen. by destruct r as [[]|e]. }
    split; [exact Hstep|].
    intros Hclears w3 setup Hdone p Hunder Hne.
    destruct (invoke (CGenOutputDirectory (kofam_data_dir self) reset)
                (gen_output_directory X (kofam_data_dir self) reset) w2)
      as [w3' r] eqn:Hgen.
    rewrite (Hstep w3' r eq_refl) in Hdone.
    destruct r as [[]|e]; simplify_eq.
    apply invoke_fs in Hgen. by eapply Hclears.
Qed.

Lemma KofamSetup_init_guard_witness :
  (∃ w2,
     KofamSetup_init (sim complete_site) normal_env plain_args installed_world
     = (w2, Raise (ConfigError (already_installed_msg "/data/KEGG"))) ∧
     calls w2 = [CGetTable "/data/KEGG/ko_list"; CIsProgramExists "hmmpress"]) ∧
  (∃ w3,
     KofamSetup_init (sim complete_site) normal_env reset_args installed_world
     = (w3, Return (constructed example_context reset_args)) ∧
     fs w3 !! "/data/KEGG/profiles/K00001.hmm" = None).
Proof.
  split.
  - pose (w1 := (KofamContext_init (sim complete_site) normal_env plain_args
                   installed_world).1).
    pose (w2 := (invoke (CIsProgramExists "hmmpress")
                   (is_program_exists (sim complete_site) "hmmpress") w1).1).
    destruct (KofamSetup_init_guard (sim complete_site) normal_env plain_args
                installed_world w1 w2 example_context (PyBool false))
      as [Hguard _]; [vm_compute; reflexivity..|].
    destruct Hguard as (Hrun & Hcalls & _); [reflexivity..|].
    exists w2. split; [exact Hrun | exact Hcalls].
  - pose (w1 := (KofamContext_init (sim complete_site) normal_env reset_args
                   installed_world).1).
    pose (w2 := (invoke (CIsProgramExists "hmmpress")
                   (is_program_exists (sim complete_site) "hmmpress") w1).1).
    pose (w3 := (invoke (CGenOutputDirectory "/data/KEGG" (PyBool true))
                   (gen_output_directory (sim complete_site) "/data/KEGG"
                      (PyBool true)) w2).1).
    destruct (KofamSetup_init_guard (sim complete_site) normal_env reset_args
                installed_world w1 w2 example_context (PyBool true))
      as [_ Hreset]; [vm_compute; reflexivity..|].
    destruct Hreset as [Hstep Hclear]; [reflexivity|].
    specialize (Hstep w3 (Return tt)).
    exists w3. split; [apply Hstep; vm_compute; reflexivity|].
    apply (Hclear (sim_gen_output_directory_clears complete_site) w3
                  (constructed example_context reset_args)).
    + apply Hstep. vm_compute. reflexivity.
    + vm_compute. reflexivity.
    + discriminate.
Defined.

(** C10.  When [args] has no [kofam_data_dir], or has one whose value is
    falsy (the empty string, [None], [False], 0), the data directory of
    the context is the default below the directory of the anvio package,
    and the table is read from there. *)
Theorem kofam_data_dir_default (X : Collaborators) (env : Env)
  (args : Namespace) (w : World) :
  (args !! "kofam_data_dir" = None ∨
   ∃ v, args !! "kofam_data_dir" = Some v ∧ py_truthy v = false) →
  calls (KofamContext_init X env args w).1
  = calls w ++ [CGetTable (posixpath.join (default_kofam_data_dir env) "ko_list")] ∧
  ∀ w' self,
    KofamContext_init X env args w = (w', Return self) →
    kofam_data_dir self
    = posixpath.join (posixpath.dirname (anvio_file env)) "data/misc/KEGG" ∧
    kofam_hmm_file_path self
    = posixpath.join (default_kofam_data_dir env) "Kofam.hmm" ∧
    ko_list_file_path self
    = posixpath.join (default_kofam_data_dir env) "ko_list".
Proof.
  intros Hfalsy.
  assert (Hdir : as_path (py_or (A args "kofam_data_dir")
                                (PyStr (default_kofam_data_dir env)))
                 = Return (default_kofam_data_dir env)).
  { unfold py_or, A. destruct Hfalsy as [->|(v & -> & ->)]; done. }
  split.
  - unfold KofamContext_init. rewrite bind_run. unfold observe at 1. cbv beta.
    rewrite Hdir. rewrite bind_run.
    pose proof (invoke_calls
      (CGetTable (posixpath.join (default_kofam_data_dir env) "ko_list"))
      (get_TAB_delimited_file_as_dictionary X
         (posixpath.join (default_kofam_data_dir env) "ko_list")) w) as Hcalls.
    destruct (invoke _ _ w) as [w1 [d|e]]; simpl in Hcalls; [|done].
    rewrite bind_run. unfold observe at 1. cbv beta.
    by destruct (get_ko_skip_list d).
  - intros w' self Hrun.
    apply KofamContext_init_inv in Hrun as (Hself & Hhmm & Hlist & _).
    rewrite Hdir in Hself. injection Hself as Hself.
    by rewrite Hhmm, Hlist, <- Hself.
Qed.

Lemma kofam_data_dir_default_witness :
  ∃ w' self,
    KofamContext_init (sim complete_site) normal_env
      {[ "kofam_data_dir" := PyStr "" ]} default_world = (w', Return self) ∧
    kofam_data_dir self = "/opt/anvio/anvio/data/misc/KEGG" ∧
    calls w' = [CGetTable "/opt/anvio/anvio/data/misc/KEGG/ko_list"].
Proof.
  pose (r := KofamContext_init (sim complete_site) normal_env
               {[ "kofam_data_dir" := PyStr "" ]} default_world).
  destruct (kofam_data_dir_default (sim complete_site) normal_env
              {[ "kofam_data_dir" := PyStr "" ]} default_world)
    as [Hcalls Hdir].
  - right. exists (PyStr ""). split; vm_compute; reflexivity.
  - exists r.1, (Build_KofamContext "/opt/anvio/anvio/data/misc/KEGG"
                   "/opt/anvio/anvio/data/misc/KEGG/Kofam.hmm"
                   "/opt/anvio/anvio/data/misc/KEGG/ko_list"
                   example_catalog ["K14936"]).
    assert (Hrun : KofamContext_init (sim complete_site) normal_env
                     {[ "kofam_data_dir" := PyStr "" ]} default_world
                   = (r.1, Return (Build_KofamContext
                        "/opt/anvio/anvio/data/misc/KEGG"
                        "/opt/anvio/anvio/data/misc/KEGG/Kofam.hmm"
                        "/opt/anvio/anvio/data/misc/KEGG/ko_list"
                        example_catalog ["K14936"])))
      by (vm_compute; reflexivity).
    split; [exact Hrun|]. split.
    + destruct (Hdir _ _ Hrun) as [Hd _]. etransitivity; [exact Hd|].
      vm_compute. reflexivity.
    + exact Hcalls.
Defined.

(** * Part III: further properties of the module *)

(** ** The skip list: errors, order and the columns that matter *)

Lemma should_skip_loop_Raise d k e cs x :
  dict_lookup d k = Some e →
  should_skip_loop d k cs = Raise x ↔
  ∃ before c after,
    cs = before ++ c :: after ∧ e !! c = None ∧
    (∀ b, b ∈ before → e !! b = Some (PyStr "-")) ∧ x = KeyError c.
Proof.
  intros He. induction cs as [|c0 cs IH]; simpl.
  - split; [discriminate|]. intros (before & c & after & Heq & _).
    by destruct before.
  - unfold dict_getitem, entry_getitem. rewrite He. simpl.
    destruct (e !! c0) as [v|] eqn:Hc0; simpl.
    + destruct (py_eq v (PyStr "-")) eqn:Hv; simpl.
      * apply py_eq_sentinel in Hv. subst v. rewrite IH. split.
        -- intros (before & c & after & -> & Hc & Hb & ->).
           exists (c0 :: before), c, after. repeat split; try done.
           intros b [->|Hin]%elem_of_cons; [done | by apply Hb].
        -- intros (before & c & after & Heq & Hc & Hb & ->).
           destruct before as [|b0 before]; simpl in Heq; simplify_eq.
           exists before, c, after. repeat split; try done.
           intros b Hin. apply Hb, elem_of_cons. by right.
      * split; [discriminate|].
        intros (before & c & after & Heq & Hc & Hb & ->).
        destruct before as [|b0 before]; simpl in Heq; simplify_eq.
        specialize (Hb b0 (list_elem_of_here _ _)). rewrite Hc0 in Hb.
        injection Hb as ->. discriminate Hv.
    + split.
      * intros [= <-]. exists [], c0, cs. repeat split; try done.
        intros b Hb. inversion Hb.
      * intros (before & c & after & Heq & Hc & Hb & ->).
        destruct before as [|b0 before]; simpl in Heq; simplify_eq; [done|].
        specialize (Hb b0 (list_elem_of_here _ _)). congruence.
Qed.

Lemma should_skip_loop_gap d k e x :
  dict_lookup d k = Some e →
  should_skip_loop d k col_names_to_check = Raise x ↔
  ∃ c, column_gap e c ∧ x = KeyError c.
Proof.
  intros He. rewrite (should_skip_loop_Raise d k e _ x He). unfold column_gap.
  split.
  - intros (before & c & after & Heq & Hc & Hb & ->). exists c. eauto 10.
  - intros (c & (before & after & Heq & Hc & Hb) & ->). eauto 10.
Qed.

Lemma should_skip_loop_no_gap d k e :
  dict_lookup d k = Some e →
  (∃ b, should_skip_loop d k col_names_to_check = Return b) ↔
  ∀ c, ¬ column_gap e c.
Proof.
  intros He. split.
  - intros [b Hb] c Hgap.
    assert (should_skip_loop d k col_names_to_check = Raise (KeyError c)) as H
      by (apply (should_skip_loop_gap d k e _ He); eauto).
    congruence.
  - intros Hno.
    destruct (should_skip_loop d k col_names_to_check) as [b|x] eqn:Hrun;
      [eauto|].
    apply (should_skip_loop_gap d k e x He) in Hrun as (c & Hgap & _).
    by destruct (Hno c).
Qed.

Lemma skip_list_loop_Raise d ks acc x :
  (∀ k, k ∈ ks → k ∈ dict_keys d) →
  skip_list_loop d ks acc = Raise x ↔
  ∃ before k after e c,
    ks = before ++ k :: after ∧ dict_lookup d k = Some e ∧
    column_gap e c ∧ x = KeyError c ∧
    ∀ k' e', k' ∈ before → dict_lookup d k' = Some e' →
             ∀ c', ¬ column_gap e' c'.
Proof.
  revert acc. induction ks as [|k0 ks IH]; intros acc Hks;
    cbn [skip_list_loop].
  - split; [discriminate|].
    intros (before & k & after & e & c & Heq & _). by destruct before.
  - destruct (proj1 (dict_lookup_keys d k0)) as [e0 He0];
      [apply Hks, elem_of_cons; by left|].
    assert (Hks' : ∀ k, k ∈ ks → k ∈ dict_keys d)
      by (intros k Hk; apply Hks, elem_of_cons; by right).
    destruct (should_skip_loop d k0 col_names_to_check) as [b|y] eqn:Hrun; cbn.
    + assert (Hno : ∀ c, ¬ column_gap e0 c)
        by (apply (should_skip_loop_no_gap d k0 e0 He0); eauto).
      rewrite (IH _ Hks'). split.
      * intros (before & k & after & e & c & -> & He & Hgap & -> & Hbef).
        exists (k0 :: before), k, after, e, c. repeat split; try done.
        intros k' e' [->|Hin]%elem_of_cons He'; [|by eapply Hbef].
        rewrite He0 in He'. by injection He' as <-.
      * intros (before & k & after & e & c & Heq & He & Hgap & -> & Hbef).
        destruct before as [|b0 before]; simpl in Heq; simplify_eq.
        { by destruct (Hno c). }
        exists before, k, after, e, c. repeat split; try done.
        intros k' e' Hin. apply Hbef, elem_of_cons. by right.
    + apply (should_skip_loop_gap d k0 e0 y He0) in Hrun as (c0 & Hgap0 & ->).
      split.
      * intros [= <-]. exists [], k0, ks, e0, c0. repeat split; try done.
        intros k' e' Hin. inversion Hin.
      * intros (before & k & after & e & c & Heq & He & Hgap & -> & Hbef).
        destruct before as [|b0 before]; simpl in Heq; simplify_eq.
        -- destruct Hgap0 as (b1 & a1 & Heq1 & Hc1 & Hb1).
           destruct Hgap as (b2 & a2 & Heq2 & Hc2 & Hb2).
           f_equal. f_equal.
           destruct (decide (c0 = c)) as [|Hne]; [done|]. exfalso.
           assert (c0 ∈ b2 ∨ c ∈ b1) as [Hin|Hin].
           { assert (Heq : b1 ++ c0 :: a1 = b2 ++ c :: a2) by congruence.
             clear -Heq Hne.
             revert b2 Heq. induction b1 as [|y b1 IHb]; intros b2 Heq2.
             - destruct b2 as [|z b2]; simpl in Heq2; simplify_eq.
               left. apply elem_of_cons. by left.
             - destruct b2 as [|z b2]; simpl in Heq2.
               + injection Heq2 as -> _. right. apply elem_of_cons. by left.
               + injection Heq2 as -> Heq2.
                 destruct (IHb b2 Heq2) as [?|?];
                   [left|right]; apply elem_of_cons; by right. }
           ++ specialize (Hb2 _ Hin). congruence.
           ++ specialize (Hb1 _ Hin). congruence.
        -- exfalso. eapply (Hbef b0 e0); [apply elem_of_cons; by left|done|].
           exact Hgap0.
Qed.

(** X1.  [get_ko_skip_list] raises exactly when the scan reaches a missing
    column: the exception is [KeyError] for the first designated column
    that the first such entry lacks, all designated columns before it
    holding the sentinel.  A column missing behind a real value is never
    looked at. *)
Theorem get_ko_skip_list_raises (d : catalog) (x : exn) :
  get_ko_skip_list d = Raise x ↔
  ∃ before k after e c,
    dict_keys d = before ++ k :: after ∧ dict_lookup d k = Some e ∧
    column_gap e c ∧ x = KeyError c ∧
    ∀ k' e', k' ∈ before → dict_lookup d k' = Some e' →
             ∀ c', ¬ column_gap e' c'.
Proof. by apply skip_list_loop_Raise. Qed.

Example get_ko_skip_list_break :
  get_ko_skip_list [("K00001", {[ "threshold" := PyStr "329.57" ]})] = Return [].
Proof. reflexivity. Qed.

Lemma dict_lookup_NoDup d k e :
  NoDup (dict_keys d) → (k, e) ∈ d → dict_lookup d k = Some e.
Proof.
  unfold dict_keys. induction d as [|[k0 e0] d IH]; simpl; intros Hnd Hin.
  - inversion Hin.
  - apply NoDup_cons in Hnd as [Hk0 Hnd].
    apply elem_of_cons in Hin as [[= -> ->]|Hin].
    + by rewrite String.eqb_refl.
    + destruct (String.eqb_spec k0 k) as [->|_]; [|by apply IH].
      destruct Hk0. apply list_elem_of_fmap. by exists (k, e).
Qed.

Lemma filter_sublist {A} (f : A → bool) (l : list A) :
  sublist (List.filter f l) l.
Proof.
  induction l as [|x l IH]; simpl; [constructor|].
  destruct (f x); by constructor.
Qed.

Lemma filter_keys_items (d d' : catalog) :
  (∀ k e, (k, e) ∈ d' → dict_lookup d k = Some e) →
  List.filter (placeholder_only d) (dict_keys d')
  = (List.filter (λ item, all_sentinel item.2) d').*1.
Proof.
  unfold dict_keys. induction d' as [|[k e] d' IH]; intros Hd'; [done|].
  assert (Hk : placeholder_only d k = all_sentinel e).
  { unfold placeholder_only. by rewrite (Hd' k e) by (apply elem_of_cons; by left). }
  rewrite fmap_cons. cbn [List.filter fst snd]. rewrite Hk.
  rewrite IH by (intros k' e' Hin; apply Hd', elem_of_cons; by right).
  by destruct (all_sentinel e).
Qed.

(** X2.  On a catalog with distinct identifiers (a dictionary), a skip
    list that [get_ko_skip_list] returns consists of the identifiers of
    the items whose own entry holds the sentinel in all designated columns,
    in catalog order and without repetition. *)
Theorem get_ko_skip_list_items (d : catalog) (skip_list : list string) :
  NoDup (dict_keys d) →
  get_ko_skip_list d = Return skip_list →
  skip_list = (List.filter (λ item, all_sentinel item.2) d).*1 ∧
  sublist skip_list (dict_keys d) ∧
  NoDup skip_list.
Proof.
  intros Hnd Hrun. apply get_ko_skip_list_filter in Hrun.
  assert (Hsub : sublist skip_list (dict_keys d))
    by (subst; apply filter_sublist).
  split; [|split; [done | by eapply sublist_NoDup]].
  subst. apply filter_keys_items. intros k e. by apply dict_lookup_NoDup.
Qed.

Lemma get_ko_skip_list_items_witness :
  ["K14936"] =
    (List.filter (λ item, all_sentinel item.2) example_catalog).*1 ∧
  sublist ["K14936"] (dict_keys example_catalog) ∧
  NoDup ["K14936"].
Proof.
  apply (get_ko_skip_list_items example_catalog ["K14936"]).
  - apply (bool_decide_unpack _). vm_compute. exact I.
  - reflexivity.
Defined.

Lemma same_designated_catalog_lookup d d' k :
  same_designated_catalog d d' →
  match dict_lookup d k, dict_lookup d' k with
  | Some e, Some e' => same_designated e e'
  | None, None => True
  | _, _ => False
  end.
Proof.
  induction 1 as [|[k0 e0] [k0' e0'] d d' [Hk He] _ IH]; simpl in *; [done|].
  subst k0'. by destruct (String.eqb k0 k).
Qed.

Lemma should_skip_loop_same d d' k cs :
  same_designated_catalog d d' →
  (∀ c, c ∈ cs → c ∈ col_names_to_check) →
  should_skip_loop d k cs = should_skip_loop d' k cs.
Proof.
  intros Hsame. induction cs as [|c cs IH]; intros Hcs; [done|]. simpl.
  pose proof (same_designated_catalog_lookup d d' k Hsame) as Hk.
  unfold dict_getitem.
  destruct (dict_lookup d k) as [e|], (dict_lookup d' k) as [e'|]; try done.
  simpl. unfold entry_getitem.
  rewrite <- (Hk c) by (apply Hcs, elem_of_cons; by left).
  destruct (e !! c) as [v|]; [|done]. simpl.
  destruct (negb (py_eq v (PyStr "-"))); [done|].
  assert (Hcs' : ∀ c', c' ∈ cs → c' ∈ col_names_to_check)
    by (intros c' Hc'; apply Hcs, elem_of_cons; by right).
  specialize (IH Hcs'). unfold dict_getitem in IH.
  destruct cs as [|c1 cs1]; [done|]. exact IH.
Qed.

Lemma same_designated_catalog_keys d d' :
  same_designated_catalog d d' → dict_keys d = dict_keys d'.
Proof.
  unfold dict_keys. induction 1 as [|[k e] [k' e'] d d' [Hk _] _ IH]; [done|].
  rewrite !fmap_cons. by f_equal.
Qed.

(** X3.  Only the ten designated columns are read: two catalogs with the
    same identifiers in the same order whose entries agree on these
    columns get the same skip list (or the same exception), whatever their
    other columns hold. *)
Theorem get_ko_skip_list_designated_only (d d' : catalog) :
  same_designated_catalog d d' →
  get_ko_skip_list d = get_ko_skip_list d'.
Proof.
  intros Hsame. unfold get_ko_skip_list.
  rewrite <- (same_designated_catalog_keys d d' Hsame).
  generalize (dict_keys d) (@nil string). intros ks.
  induction ks as [|k ks IH]; intros acc; cbn [skip_list_loop]; [done|].
  rewrite (should_skip_loop_same d d' k col_names_to_check Hsame) by done.
  destruct (should_skip_loop d' k col_names_to_check) as [b|x]; cbn; [|done].
  apply IH.
Qed.

Lemma get_ko_skip_list_designated_only_witness :
  get_ko_skip_list example_catalog = get_ko_skip_list bare_catalog.
Proof.
  apply (get_ko_skip_list_designated_only example_catalog bare_catalog).
  unfold same_designated_catalog, example_catalog, bare_catalog.
  assert (Hdef : "definition" ∉ col_names_to_check)
    by (apply (bool_decide_unpack _); vm_compute; exact I).
  apply List.Forall2_cons;
    [|apply List.Forall2_cons; [|apply List.Forall2_nil]];
    (split; [reflexivity|]); intros c Hc; simpl;
    rewrite lookup_delete_ne; try done; by intros <-.
Defined.

(** ** The check, the concatenation list and the clean-up together *)

(** X4.  The check of the downloaded files returns exactly when every file
    of the list that [run_hmmpress] concatenates exists: what is verified
    is what is concatenated. *)
Theorem confirm_downloaded_files_hmm_list (self : KofamContext) (fs : FS) :
  confirm_downloaded_files self fs = Return tt ↔
  Forall (λ p, os_path_exists fs p = true) (hmm_list self).
Proof.
  unfold confirm_downloaded_files. rewrite confirm_loop_Return.
  rewrite hmm_list_filter, Forall_fmap, Forall_forall. unfold profile_present.
  split.
  - intros H k Hk. apply list_elem_of_In, filter_In in Hk as [Hk Hns].
    apply bool_decide_eq_true in Hns. apply H; [by apply list_elem_of_In|done].
  - intros H k Hk Hns. apply (H k). apply list_elem_of_In, filter_In.
    split; [by apply list_elem_of_In | by apply bool_decide_eq_true].
Qed.

Lemma filter_negb_length {A} (f : A → bool) (l : list A) :
  (length (List.filter f l) + length (List.filter (λ x, negb (f x)) l)
   = length l)%nat.
Proof.
  induction l as [|x l IH]; [done|]. simpl. destruct (f x); simpl; lia.
Qed.

Lemma skip_list_contains (self : KofamContext) k :
  get_ko_skip_list (ko_dict self) = Return (ko_skip_list self) →
  k ∈ dict_keys (ko_dict self) →
  list_contains (ko_skip_list self) k = placeholder_only (ko_dict self) k.
Proof.
  intros Hskip Hk. apply get_ko_skip_list_filter in Hskip.
  destruct (placeholder_only (ko_dict self) k) eqn:Hp.
  - apply list_contains_true. rewrite Hskip.
    apply list_elem_of_In, filter_In. split; [by apply list_elem_of_In|done].
  - apply list_contains_false. rewrite Hskip. intros Hin.
    apply list_elem_of_In, filter_In in Hin as [_ Hin]. congruence.
Qed.

(** X5.  For an object whose skip list is the one computed from its
    catalog, as the constructor leaves it: every catalog identifier is
    either skip-listed or has its profile concatenated, never both, so the
    two lists together are as long as the catalog. *)
Theorem hmm_list_skip_list_partition (self : KofamContext) :
  get_ko_skip_list (ko_dict self) = Return (ko_skip_list self) →
  (length (hmm_list self) + length (ko_skip_list self)
   = length (dict_keys (ko_dict self)))%nat ∧
  ∀ k, k ∈ dict_keys (ko_dict self) →
       (k ∈ ko_skip_list self ↔
        hmm_path_of (kofam_data_dir self) k ∉ hmm_list self).
Proof.
  intros Hskip. split.
  - unfold hmm_list. rewrite length_map.
    rewrite (List.filter_ext_in _
               (λ k, negb (placeholder_only (ko_dict self) k))).
    + rewrite (get_ko_skip_list_filter _ _ Hskip) at 1.
      pose proof (filter_negb_length (placeholder_only (ko_dict self))
                    (dict_keys (ko_dict self))). lia.
    + intros k Hk. f_equal. apply skip_list_contains; [done|].
      by apply list_elem_of_In.
  - intros k Hk. rewrite hmm_list_filter. split.
    + intros Hin Hp. apply list_elem_of_fmap in Hp as (k' & Heq & Hk').
      apply hmm_path_of_inj in Heq. subst k'.
      apply list_elem_of_In, filter_In in Hk' as [_ Hk'].
      by apply bool_decide_eq_true in Hk'.
    + intros Hp. destruct (decide (k ∈ ko_skip_list self)) as [|Hns]; [done|].
      destruct Hp. apply list_elem_of_fmap. exists k. split; [done|].
      apply list_elem_of_In, filter_In.
      split; [by apply list_elem_of_In | by apply bool_decide_eq_true].
Qed.

Lemma hmm_list_skip_list_partition_witness :
  (length (hmm_list example_context) + length (ko_skip_list example_context)
   = length (dict_keys (ko_dict example_context)))%nat ∧
  ∀ k, k ∈ dict_keys (ko_dict example_context) →
       (k ∈ ko_skip_list example_context ↔
        hmm_path_of (kofam_data_dir example_context) k
        ∉ hmm_list example_context).
Proof.
  apply (hmm_list_skip_list_partition example_context). reflexivity.
Defined.

Lemma hmm_path_under_profiles (dir k : string) :
  under (posixpath.join dir "profiles") (hmm_path_of dir k) = true.
Proof. by apply (under_join_below dir "profiles" (k +:+ ".hmm")). Qed.

(** X6.  Every file that is concatenated lies below the profiles
    directory; so after the check, the concatenation and the clean-up
    have returned without the debug override, none of the concatenated
    files exists any more. *)
Theorem concatenated_files_removed (X : Collaborators) (env : Env)
  (self : KofamContext) (w w2 : World) :
  DEBUG env = false →
  verify_and_concatenate X env self w = (w2, Return tt) →
  Forall (λ p, under (profiles_dir self) p = true) (hmm_list self) ∧
  Forall (λ p, os_path_exists (fs w2) p = false) (hmm_list self).
Proof.
  intros Hdebug Hrun.
  assert (Hunder : Forall (λ p, under (profiles_dir self) p = true)
                          (hmm_list self)).
  { unfold hmm_list. apply Forall_fmap, Forall_forall. intros k _.
    apply hmm_path_under_profiles. }
  split; [done|].
  unfold verify_and_concatenate in Hrun.
  apply bind_inv_Return in Hrun as (w0 & [] & _ & Hrun).
  apply bind_inv_Return in Hrun as (w1 & [] & _ & Hrm).
  rewrite Hdebug in Hrm. simpl in Hrm. rewrite shutil_rmtree_run in Hrm.
  destruct (fs w1 !! profiles_dir self) as [[|]|]; simplify_eq.
  eapply Forall_impl; [exact Hunder|]. intros p Hp. simpl.
  unfold os_path_exists. by rewrite filter_not_under_lookup, Hp.
Qed.

Lemma concatenated_files_removed_witness :
  ∃ w2,
    verify_and_concatenate (sim complete_site) normal_env example_context
                           extracted_world = (w2, Return tt) ∧
    Forall (λ p, os_path_exists (fs w2) p = false) (hmm_list example_context).
Proof.
  pose (w2 := (verify_and_concatenate (sim complete_site) normal_env
                 example_context extracted_world).1).
  assert (Hrun : verify_and_concatenate (sim complete_site) normal_env
                   example_context extracted_world = (w2, Return tt))
    by (vm_compute; reflexivity).
  exists w2. split; [exact Hrun|].
  by apply (concatenated_files_removed (sim complete_site) normal_env
              example_context extracted_world w2).
Defined.

(** ** Construction: what it establishes and how it fails *)

(** X7.  A context that [KofamContext.__init__] returns has its two file
    paths joined below its data directory, its catalog is what the loader
    returned for [<dir>/ko_list] on the file system found at construction,
    its skip list is the one of that catalog, and the file system is as
    the loader left it. *)
Theorem KofamContext_init_establishes (X : Collaborators) (env : Env)
  (args : Namespace) (w w' : World) (self : KofamContext) :
  KofamContext_init X env args w = (w', Return self) →
  kofam_hmm_file_path self = posixpath.join (kofam_data_dir self) "Kofam.hmm" ∧
  ko_list_file_path self = posixpath.join (kofam_data_dir self) "ko_list" ∧
  get_TAB_delimited_file_as_dictionary X (ko_list_file_path self) (fs w)
  = (fs w', Return (ko_dict self)) ∧
  get_ko_skip_list (ko_dict self) = Return (ko_skip_list self).
Proof.
  unfold KofamContext_init. intros Hrun.
  apply bind_inv_Return in Hrun as (w0 & dir & Hdir & Hrun).
  apply bind_inv_Return in Hrun as (w1 & d & Hload & Hrun).
  apply bind_inv_Return in Hrun as (w2 & skip & Hskip & Hrun).
  unfold observe in Hdir, Hskip. rewrite mret_run in Hrun. simplify_eq.
  simpl. repeat split; try done. by apply invoke_fs in Hload.
Qed.

Lemma KofamContext_init_establishes_witness :
  ∃ w' self,
    KofamContext_init (sim complete_site) normal_env plain_args installed_world
    = (w', Return self) ∧
    kofam_hmm_file_path self = "/data/KEGG/Kofam.hmm" ∧
    get_ko_skip_list (ko_dict self) = Return (ko_skip_list self).
Proof.
  pose (w' := (KofamContext_init (sim complete_site) normal_env plain_args
                 installed_world).1).
  assert (Hrun : KofamContext_init (sim complete_site) normal_env plain_args
                   installed_world = (w', Return example_context))
    by (vm_compute; reflexivity).
  destruct (KofamContext_init_establishes _ _ _ _ _ _ Hrun)
    as (Hhmm & _ & _ & Hskip).
  exists w', example_context. split; [exact Hrun|]. split; [reflexivity|].
  exact Hskip.
Defined.

(** X8.  A [kofam_data_dir] argument that is a non-empty string is taken
    as the data directory as it is: the table is read from below it, and a
    context that is returned has it as its directory. *)
Theorem kofam_data_dir_override (X : Collaborators) (env : Env)
  (args : Namespace) (w : World) (dir : string) :
  args !! "kofam_data_dir" = Some (PyStr dir) → dir ≠ "" →
  calls (KofamContext_init X env args w).1
  = calls w ++ [CGetTable (posixpath.join dir "ko_list")] ∧
  ∀ w' self,
    KofamContext_init X env args w = (w', Return self) →
    kofam_data_dir self = dir.
Proof.
  intros Harg Hne.
  assert (Hdir : as_path (py_or (A args "kofam_data_dir")
                                (PyStr (default_kofam_data_dir env)))
                 = Return dir).
  { unfold py_or, A. rewrite Harg. simpl.
    by destruct (String.eqb_spec dir "") as [->|_]. }
  split.
  - unfold KofamContext_init. rewrite bind_run. unfold observe at 1. cbv beta.
    rewrite Hdir. rewrite bind_run.
    pose proof (invoke_calls (CGetTable (posixpath.join dir "ko_list"))
      (get_TAB_delimited_file_as_dictionary X (posixpath.join dir "ko_list")) w)
      as Hcalls.
    destruct (invoke _ _ w) as [w1 [d|e]]; simpl in Hcalls; [|done].
    rewrite bind_run. unfold observe at 1. cbv beta.
    by destruct (get_ko_skip_list d).
  - intros w' self Hrun.
    apply KofamContext_init_inv in Hrun as (Hself & _).
    rewrite Hdir in Hself. by injection Hself as ->.
Qed.

Lemma kofam_data_dir_override_witness :
  calls (KofamContext_init (sim complete_site) normal_env plain_args
           installed_world).1
  = [CGetTable "/data/KEGG/ko_list"] ∧
  ∀ w' self,
    KofamContext_init (sim complete_site) normal_env plain_args installed_world
    = (w', Return self) →
    kofam_data_dir self = "/data/KEGG".
Proof.
  apply (kofam_data_dir_override (sim complete_site) normal_env plain_args
           installed_world "/data/KEGG"); [reflexivity | discriminate].
Defined.

(** X9.  A truthy [kofam_data_dir] argument that is not a string makes
    [KofamContext.__init__] raise [TypeError] at the first [os.path.join],
    before the table is read: the world is untouched. *)
Theorem kofam_data_dir_not_a_string (X : Collaborators) (env : Env)
  (args : Namespace) (w : World) (v : pyval) :
  args !! "kofam_data_dir" = Some v → py_truthy v = true →
  (∀ s, v ≠ PyStr s) →
  KofamContext_init X env args w = (w, Raise TypeError).
Proof.
  intros Harg Htruthy Hnot. unfold KofamContext_init.
  rewrite bind_run. unfold observe at 1. cbv beta.
  unfold py_or, A. rewrite Harg, Htruthy.
  destruct v as [|b|n|s]; try done. by destruct (Hnot s).
Qed.

Lemma kofam_data_dir_not_a_string_witness :
  KofamContext_init (sim complete_site) normal_env args_with_flag_dir
    installed_world
  = (installed_world, Raise TypeError).
Proof.
  apply (kofam_data_dir_not_a_string (sim complete_site) normal_env
           args_with_flag_dir installed_world (PyBool true));
    [reflexivity | reflexivity | discriminate].
Defined.

Lemma KofamContext_init_emits X env args :
  emits (in_stage Construct) (KofamContext_init X env args).
Proof.
  apply emits_bind; [apply emits_observe|]. intros dir.
  apply emits_bind; [by apply emits_invoke|]. intros d.
  apply emits_bind; [apply emits_observe|]. intros skip. apply emits_mret.
Qed.

Lemma KofamSetup_init_emits X env args :
  emits (in_stage Construct) (KofamSetup_init X env args).
Proof.
  apply emits_bind; [apply KofamContext_init_emits|]. intros self.
  apply emits_bind; [by apply emits_invoke|]. intros _.
  apply emits_bind; [apply emits_observe|]. intros reset.
  apply emits_bind.
  { destruct (_ && _); [apply emits_observe | apply emits_mret]. }
  intros _. apply emits_bind; [apply emits_observe|]. intros reset'.
  apply emits_bind; [by apply emits_invoke|]. intros _. apply emits_mret.
Qed.

(** The calls of a construction that returns, and the object it leaves. *)
Lemma KofamSetup_init_Return_calls X env args w w' (setup : KofamSetup) :
  KofamSetup_init X env args w = (w', Return setup) →
  ∃ reset,
    args !! "reset" = Some reset ∧
    setup = constructed setup args ∧
    calls w' = calls w ++
      [CGetTable (ko_list_file_path setup); CIsProgramExists "hmmpress";
       CGenOutputDirectory (kofam_data_dir setup) reset].
Proof.
  intros Hrun. unfold KofamSetup_init in Hrun.
  apply bind_inv_Return in Hrun as (w1 & self & Hinit & Hrun).
  apply bind_inv_Return in Hrun as (w2 & [] & Hprog & Hrun).
  apply bind_inv_Return in Hrun as (w3 & reset & Hattr & Hrun).
  apply bind_inv_Return in Hrun as (w4 & [] & Hguard & Hrun).
  apply bind_inv_Return in Hrun as (w5 & reset' & Hattr' & Hrun).
  apply bind_inv_Return in Hrun as (w6 & [] & Hgen & Hrun).
  rewrite mret_run in Hrun. unfold observe in Hattr, Hattr'.
  injection Hrun as <- <-. injection Hattr as <- Hattr.
  injection Hattr' as <- Hattr'.
  assert (w4 = w2) as ->.
  { destruct (_ && _) in Hguard.
    - unfold observe in Hguard. by injection Hguard as ->.
    - rewrite mret_run in Hguard. by injection Hguard as ->. }
  assert (reset' = reset) as -> by congruence.
  exists reset. split.
  { unfold getattr in Hattr. by destruct (args !! "reset"); simplify_eq. }
  split; [done|]. simpl.
  apply KofamContext_init_inv in Hinit as (_ & _ & _ & _ & Hc1).
  pose proof (invoke_calls (CIsProgramExists "hmmpress")
                (is_program_exists X "hmmpress") w1) as Hc2.
  rewrite Hprog in Hc2.
  pose proof (invoke_calls (CGenOutputDirectory (kofam_data_dir self) reset)
                (gen_output_directory X (kofam_data_dir self) reset) w2) as Hc3.
  rewrite Hgen in Hc3. simpl in *.
  by rewrite Hc3, Hc2, Hc1, <- !app_assoc.
Qed.

(** X10.  [KofamSetup.__init__] never downloads, decompresses,
    concatenates or runs the indexer.  A construction that returns has read
    the table, looked up the hmmpress program and prepared the data
    directory, in this order and nothing else, and leaves the object with
    the fixed URL and the two file names. *)
Theorem KofamSetup_init_calls (X : Collaborators) (env : Env)
  (args : Namespace) (w : World) :
  (∃ t, calls (KofamSetup_init X env args w).1 = calls w ++ t ∧
        Forall (in_stage Construct) t) ∧
  ∀ w' setup,
    KofamSetup_init X env args w = (w', Return setup) →
    ∃ reset,
      args !! "reset" = Some reset ∧
      setup = constructed setup args ∧
      calls w' = calls w ++
        [CGetTable (ko_list_file_path setup); CIsProgramExists "hmmpress";
         CGenOutputDirectory (kofam_data_dir setup) reset].
Proof.
  split; [apply KofamSetup_init_emits|].
  intros w' setup Hrun.
  by apply (KofamSetup_init_Return_calls X env args w w' setup).
Qed.

(** X11.  With the debug override the existence guard is not evaluated,
    reset or not: a construction that has loaded the catalog and found the
    program goes on to prepare the data directory, whether or not the
    marker exists. *)
Theorem KofamSetup_init_debug (X : Collaborators) (env : Env)
  (args : Namespace) (w w1 w2 : World) (self : KofamContext) (reset : pyval) :
  DEBUG env = true →
  KofamContext_init X env args w = (w1, Return self) →
  invoke (CIsProgramExists "hmmpress") (is_program_exists X "hmmpress") w1
  = (w2, Return tt) →
  args !! "reset" = Some reset →
  KofamSetup_init X env args w
  = match invoke (CGenOutputDirectory (kofam_data_dir self) reset)
                 (gen_output_directory X (kofam_data_dir self) reset) w2 with
    | (w3, Return _) => (w3, Return (constructed self args))
    | (w3, Raise e) => (w3, Raise e)
    end.
Proof.
  intros Hdebug Hinit Hprog Hreset.
  assert (Hattr : getattr args "reset" = Return reset)
    by (unfold getattr; by rewrite Hreset).
  unfold KofamSetup_init.
  rewrite (bind_Return _ _ _ _ _ Hinit), (bind_Return _ _ _ _ _ Hprog).
  rewrite bind_run. unfold observe at 1. cbv beta. rewrite Hattr, Hdebug.
  rewrite andb_false_r, bind_run, mret_run, bind_run.
  unfold observe at 1. cbv beta. rewrite bind_run.
  by destruct (invoke _ _ w2) as [w3 [[]|e]].
Qed.

Lemma KofamSetup_init_debug_witness :
  ∃ w3,
    KofamSetup_init (sim complete_site) debug_env plain_args installed_world
    = (w3, Return (constructed example_context plain_args)) ∧
    fs w3 !! "/data/KEGG/profiles/K00001.hmm" = Some File.
Proof.
  pose (w1 := (KofamContext_init (sim complete_site) debug_env plain_args
                 installed_world).1).
  pose (w2 := (invoke (CIsProgramExists "hmmpress")
                 (is_program_exists (sim complete_site) "hmmpress") w1).1).
  pose (w3 := (invoke (CGenOutputDirectory "/data/KEGG" (PyBool false))
                 (gen_output_directory (sim complete_site) "/data/KEGG"
                    (PyBool false)) w2).1).
  exists w3. split; [|vm_compute; reflexivity].
  rewrite (KofamSetup_init_debug (sim complete_site) debug_env plain_args
             installed_world w1 w2 example_context (PyBool false));
    [|reflexivity|vm_compute; reflexivity..].
  vm_compute. reflexivity.
Defined.

(** X12.  What precedes the guard fails first: an exception of
    [KofamContext.__init__] or of the program look-up ends the
    construction as it is, also when the marker exists; and arguments
    without the [reset] attribute end it with [AttributeError] once the
    catalog is loaded and the program found.  In none of these cases is
    the data directory prepared. *)
Theorem KofamSetup_init_early_errors (X : Collaborators) (env : Env)
  (args : Namespace) (w : World) :
  (∀ w1 e,
     KofamContext_init X env args w = (w1, Raise e) →
     KofamSetup_init X env args w = (w1, Raise e)) ∧
  (∀ w1 self w2 e,
     KofamContext_init X env args w = (w1, Return self) →
     invoke (CIsProgramExists "hmmpress") (is_program_exists X "hmmpress") w1
     = (w2, Raise e) →
     KofamSetup_init X env args w = (w2, Raise e)) ∧
  (∀ w1 self w2,
     KofamContext_init X env args w = (w1, Return self) →
     invoke (CIsProgramExists "hmmpress") (is_program_exists X "hmmpress") w1
     = (w2, Return tt) →
     args !! "reset" = None →
     KofamSetup_init X env args w = (w2, Raise (AttributeError "reset"))).
Proof.
  split; [|split].
  - intros w1 e Hinit. unfold KofamSetup_init.
    by rewrite (bind_Raise _ _ _ _ _ Hinit).
  - intros w1 self w2 e Hinit Hprog. unfold KofamSetup_init.
    rewrite (bind_Return _ _ _ _ _ Hinit). by rewrite (bind_Raise _ _ _ _ _ Hprog).
  - intros w1 self w2 Hinit Hprog Hreset. unfold KofamSetup_init.
    rewrite (bind_Return _ _ _ _ _ Hinit), (bind_Return _ _ _ _ _ Hprog).
    rewrite bind_run. unfold observe at 1, getattr at 1. by rewrite Hreset.
Qed.

Example KofamSetup_init_program_missing :
  (KofamSetup_init (sim no_hmmpress_site) normal_env plain_args
     installed_world).2
  = Raise (ConfigError
             "An anvi'o function needs 'hmmpress' to be installed on your system.").
Proof. vm_compute. reflexivity. Qed.

Example KofamSetup_init_without_reset :
  (KofamSetup_init (sim complete_site) normal_env args_without_reset
     installed_world).2
  = Raise (AttributeError "reset").
Proof. vm_compute. reflexivity. Qed.

(** ** Download and decompression *)

Lemma for_each_outcome {A} (c : A → call) (body : A → M unit) l w :
  (∀ x w0, calls (body x w0).1 = calls w0 ++ [c x]) →
  match for_each l body w with
  | (w', Return _) => calls w' = calls w ++ (c <$> l)
  | (w', Raise e) =>
      ∃ done f rest w0,
        l = done ++ f :: rest ∧ calls w0 = calls w ++ (c <$> done) ∧
        body f w0 = (w', Raise e)
  end.
Proof.
  intros Hbody. revert w. induction l as [|x l IH]; intros w; cbn [for_each].
  - rewrite mret_run, fmap_nil. by rewrite app_nil_r.
  - rewrite bind_run. pose proof (Hbody x w) as Hx.
    destruct (body x w) as [w1 [[]|e]] eqn:Hrun; simpl in Hx.
    + specialize (IH w1). destruct (for_each l body w1) as [w' [[]|e]].
      * by rewrite IH, Hx, <- app_assoc.
      * destruct IH as (done & f & rest & w0 & -> & Hc & Hf).
        exists (x :: done), f, rest, w0. split; [done|]. split; [|done].
        by rewrite Hc, Hx, fmap_cons, <- app_assoc.
    + exists [], x, l, w. split; [done|]. split; [|done].
      by rewrite app_nil_r.
Qed.

(** X13.  [download] and [decompress_files] work through [self.files] in
    order, one call for each file, and stop at the first call that raises:
    the run ends with the exception and world of that call, and no later
    file is requested or unpacked. *)
Theorem download_decompress_in_order (X : Collaborators) (self : KofamSetup)
  (w : World) :
  match download X self w with
  | (w', Return _) => calls w' = calls w ++ (download_call self <$> files self)
  | (w', Raise e) =>
      ∃ done f rest w0,
        files self = done ++ f :: rest ∧
        calls w0 = calls w ++ (download_call self <$> done) ∧
        invoke (download_call self f)
               (download_file X (database_url self +:+ "/" +:+ f)
                  (posixpath.join (kofam_data_dir self) f)) w0
        = (w', Raise e)
  end ∧
  match decompress_files X self w with
  | (w', Return _) => calls w' = calls w ++ (decompress_call self <$> files self)
  | (w', Raise e) =>
      ∃ done f rest w0,
        files self = done ++ f :: rest ∧
        calls w0 = calls w ++ (decompress_call self <$> done) ∧
        invoke (decompress_call self f)
               (if endswith (posixpath.join (kofam_data_dir self) f) "tar.gz"
                then tar_extract_file X (posixpath.join (kofam_data_dir self) f)
                                      (kofam_data_dir self) false
                else gzip_decompress_file X
                       (posixpath.join (kofam_data_dir self) f) false) w0
        = (w', Raise e)
  end.
Proof.
  split.
  - apply (for_each_outcome (download_call self)). intros x w0.
    apply invoke_calls.
  - pose proof (for_each_outcome (decompress_call self)
      (λ file_name,
         let full_path := posixpath.join (kofam_data_dir self) file_name in
         if endswith full_path "tar.gz"
         then invoke (CTarExtractFile full_path (kofam_data_dir self) false)
                     (tar_extract_file X full_path (kofam_data_dir self) false)
         else invoke (CGzipDecompressFile full_path false)
                     (gzip_decompress_file X full_path false))
      (files self) w) as H.
    assert (Hbody : ∀ x w0,
      calls ((λ file_name,
         let full_path := posixpath.join (kofam_data_dir self) file_name in
         if endswith full_path "tar.gz"
         then invoke (CTarExtractFile full_path (kofam_data_dir self) false)
                     (tar_extract_file X full_path (kofam_data_dir self) false)
         else invoke (CGzipDecompressFile full_path false)
                     (gzip_decompress_file X full_path false)) x w0).1
      = calls w0 ++ [decompress_call self x]).
    { intros x w0. unfold decompress_call. cbv beta zeta.
      destruct (endswith _ _); apply invoke_calls. }
    specialize (H Hbody). unfold decompress_files.
    destruct (for_each _ _ w) as [w' [[]|e]]; [done|].
    destruct H as (done & f & rest & w0 & Hl & Hc & Hf).
    exists done, f, rest, w0. split; [done|]. split; [done|].
    cbv beta zeta in Hf. rewrite <- Hf. unfold decompress_call. cbv zeta.
    by destruct (endswith _ _).
Qed.

Lemma rev_app_app (s acc : string) :
  String.rev_app s acc = String.rev s +:+ acc.
Proof.
  unfold String.rev. revert acc. induction s as [|a s IH]; intros acc; [done|].
  simpl. rewrite (IH (String a acc)), (IH (String a "")).
  by rewrite string_app_assoc.
Qed.

Lemma rev_cons (a : ascii) (s : string) :
  String.rev (String a s) = String.rev s +:+ String a "".
Proof. unfold String.rev at 1. simpl. apply rev_app_app. Qed.

Lemma rev_append (s t : string) :
  String.rev (s +:+ t) = String.rev t +:+ String.rev s.
Proof.
  induction s as [|a s IH].
  - by rewrite string_app_nil_r.
  - by rewrite string_app_cons, !rev_cons, IH, string_app_assoc.
Qed.

Lemma prefix_before_sep (s x y : string) :
  no_sep s = true →
  y = "" ∨ posixpath.startswith_sep y = true →
  String.prefix s (x +:+ y) = String.prefix s x.
Proof.
  intros Hs Hy. revert x. induction s as [|a s IH]; intros x.
  - by destruct (x +:+ y), x.
  - simpl in Hs. apply andb_true_iff in Hs as [Ha Hs].
    destruct x as [|b x].
    + destruct Hy as [->|Hy]; [done|]. destruct y as [|c y]; [done|].
      simpl in *. apply Ascii.eqb_eq in Hy. subst c.
      destruct (ascii_dec a posixpath.sep) as [->|]; [|done].
      by rewrite Ascii.eqb_refl in Ha.
    + rewrite string_app_cons. simpl.
      destruct (ascii_dec a b); [by apply IH | done].
Qed.

Lemma endswith_sep_inv (p : string) :
  posixpath.endswith_sep p = true → ∃ p', p = p' +:+ "/".
Proof.
  induction p as [|a p IH]; [done|]. destruct p as [|b p].
  - simpl. intros ->%Ascii.eqb_eq. by exists "".
  - intros H. destruct (IH H) as [p' ->]. by exists (String a p').
Qed.

Lemma dir_prefix_rev (dir : string) :
  String.rev (dir_prefix dir) = "" ∨
  posixpath.startswith_sep (String.rev (dir_prefix dir)) = true.
Proof.
  unfold dir_prefix. destruct (String.eqb_spec dir "") as [->|Hne]; simpl.
  - by left.
  - right. destruct (posixpath.endswith_sep dir) eqn:Hend.
    + apply endswith_sep_inv in Hend as [p' ->]. by rewrite rev_append.
    + by rewrite rev_append.
Qed.

Lemma endswith_join_tar_gz (dir file_name : string) :
  endswith (posixpath.join dir file_name) "tar.gz" = endswith file_name "tar.gz".
Proof.
  destruct (posixpath.startswith_sep file_name) eqn:Hrel.
  - unfold posixpath.join. by rewrite Hrel.
  - rewrite join_relative by done. unfold endswith. rewrite rev_append.
    apply prefix_before_sep; [reflexivity | apply dir_prefix_rev].
Qed.

(** X14.  Whether a downloaded file is unpacked as a tar archive or
    gunzipped depends on the name of the file alone, not on the data
    directory: a run of [decompress_files] that returns has, for each file
    in order, extracted it into the data directory if its name ends in
    tar.gz and gunzipped it otherwise, never keeping the original. *)
Theorem decompress_files_by_name (X : Collaborators) (self : KofamSetup)
  (w w' : World) :
  decompress_files X self w = (w', Return tt) →
  calls w' = calls w ++ (decompress_call_by_name self <$> files self).
Proof.
  intros Hrun. rewrite (decompress_files_calls X self w w' Hrun). f_equal.
  apply list_fmap_ext. intros _ f _.
  unfold decompress_call, decompress_call_by_name. cbv zeta.
  by rewrite endswith_join_tar_gz.
Qed.

Lemma decompress_files_by_name_witness :
  ∃ w',
    decompress_files (sim complete_site) example_setup fresh_world
    = (w', Return tt) ∧
    calls w' = [CGzipDecompressFile "/data/KEGG/ko_list.gz" false;
                CTarExtractFile "/data/KEGG/profiles.tar.gz" "/data/KEGG" false].
Proof.
  pose (w' := (decompress_files (sim complete_site) example_setup
                 fresh_world).1).
  assert (Hrun : decompress_files (sim complete_site) example_setup fresh_world
                 = (w', Return tt)) by (vm_compute; reflexivity).
  exists w'. split; [exact Hrun|].
  etransitivity;
    [exact (decompress_files_by_name (sim complete_site) example_setup
              fresh_world w' Hrun)|].
  vm_compute. reflexivity.
Defined.

(** ** The indexer stage and what [run_hmmpress] removes *)

Lemma hmmpress_keeps_marker_absent X (self : KofamContext) w2 w3 o :
  indexer_leaves_profiles_absent X self →
  fs w2 !! posixpath.join (kofam_data_dir self) "profiles/K00001.hmm" = None →
  hmmpress X self w2 = (w3, o) →
  fs w3 !! posixpath.join (kofam_data_dir self) "profiles/K00001.hmm" = None.
Proof.
  intros Hindexer Hw2 Hpress. apply invoke_fs in Hpress.
  change (fs w3) with (fs w3, o).1. rewrite <- Hpress.
  apply Hindexer; [apply marker_under_profiles | done].
Qed.

(** X15.  The profiles are removed before the indexer is started: once
    the check, the concatenation and the clean-up have returned without the
    debug override, the marker [profiles/K00001.hmm] is absent however the
    run of the indexer ends, also when [run_hmmpress] raises; the
    existence guard of a later construction does not notice the failed
    set-up. *)
Theorem run_hmmpress_marker_after_indexer (X : Collaborators) (env : Env)
  (self : KofamContext) (w w2 w' : World) (r : outcome unit) :
  DEBUG env = false →
  indexer_leaves_profiles_absent X self →
  verify_and_concatenate X env self w = (w2, Return tt) →
  run_hmmpress X env self w = (w', r) →
  os_path_exists (fs w')
    (posixpath.join (kofam_data_dir self) "profiles/K00001.hmm") = false ∧
  is_database_exists self (fs w') = Return tt.
Proof.
  intros Hdebug Hindexer Hvc Hrun.
  assert (Hw2 : fs w2 !! posixpath.join (kofam_data_dir self)
                                        "profiles/K00001.hmm" = None).
  { unfold verify_and_concatenate in Hvc.
    apply bind_inv_Return in Hvc as (w0 & [] & _ & Hvc).
    apply bind_inv_Return in Hvc as (w1 & [] & _ & Hrm).
    rewrite Hdebug in Hrm. simpl in Hrm. rewrite shutil_rmtree_run in Hrm.
    destruct (fs w1 !! profiles_dir self) as [[|]|]; simplify_eq. simpl.
    rewrite filter_not_under_lookup.
    unfold profiles_dir. by rewrite marker_under_profiles. }
  assert (Hgone : fs w' !! posixpath.join (kofam_data_dir self)
                                          "profiles/K00001.hmm" = None).
  { rewrite run_hmmpress_stages, (bind_Return _ _ _ _ _ Hvc) in Hrun.
    unfold run_indexer in Hrun. rewrite bind_run in Hrun.
    destruct (hmmpress X self w2) as [w3 o] eqn:Hpress.
    pose proof (hmmpress_keeps_marker_absent X self w2 w3 o Hindexer Hw2 Hpress)
      as Hw3.
    destruct o as [ret_val|e]; [|by simplify_eq].
    destruct (negb (Z.eqb ret_val 0)).
    - unfold raise in Hrun. by simplify_eq.
    - rewrite os_remove_run in Hrun.
      destruct (fs w3 !! log_file_path_of self) as [[|]|]; simplify_eq;
        simpl; try done.
      apply lookup_delete_None. by right. }
  split.
  - unfold os_path_exists. by rewrite Hgone.
  - unfold is_database_exists, os_path_exists. by rewrite Hgone.
Qed.

Lemma run_hmmpress_marker_after_indexer_witness :
  ∃ w' e,
    run_hmmpress (sim failing_hmmpress_site) normal_env example_context
                 extracted_world = (w', Raise e) ∧
    is_database_exists example_context (fs w') = Return tt.
Proof.
  pose (w2 := (verify_and_concatenate (sim failing_hmmpress_site) normal_env
                 example_context extracted_world).1).
  pose (w' := (run_hmmpress (sim failing_hmmpress_site) normal_env
                 example_context extracted_world).1).
  assert (Hrun : run_hmmpress (sim failing_hmmpress_site) normal_env
                   example_context extracted_world
                 = (w', Raise (ConfigError (hmmpress_failed_msg
                                  "/data/KEGG/00_hmmpress_log.txt"))))
    by (vm_compute; reflexivity).
  exists w', (ConfigError (hmmpress_failed_msg "/data/KEGG/00_hmmpress_log.txt")).
  split; [exact Hrun|].
  apply (run_hmmpress_marker_after_indexer (sim failing_hmmpress_site)
           normal_env example_context extracted_world w2 w'
           (Raise (ConfigError (hmmpress_failed_msg
                                  "/data/KEGG/00_hmmpress_log.txt")))).
  - reflexivity.
  - intros fs p Hunder Hp. simpl.
    rewrite !lookup_insert_ne; [done|intros <-; vm_compute in Hunder; done..].
  - vm_compute. reflexivity.
  - exact Hrun.
Defined.

(** X16.  Whatever happens, [run_hmmpress] calls nothing but: the
    concatenation into the compiled artifact of exactly the list of
    profiles, never asking for the inputs to be removed; the removal of
    the profiles directory, and that only without the debug override; the
    hmmpress program on the compiled artifact with the log file below the
    data directory; and the removal of that log file. *)
Theorem run_hmmpress_calls_only (X : Collaborators) (env : Env)
  (self : KofamContext) (w : World) :
  ∃ t,
    calls (run_hmmpress X env self w).1 = calls w ++ t ∧
    Forall (λ c,
      c = CConcatenateFiles (kofam_hmm_file_path self) (hmm_list self) false ∨
      (DEBUG env = false ∧
       c = CRmtree (posixpath.join (kofam_data_dir self) "profiles")) ∨
      c = CRunCommand ["hmmpress"; kofam_hmm_file_path self]
            (posixpath.join (kofam_data_dir self) "00_hmmpress_log.txt") ∨
      c = CRemove (posixpath.join (kofam_data_dir self) "00_hmmpress_log.txt"))
      t.
Proof.
  revert w. change (emits (λ c,
      c = CConcatenateFiles (kofam_hmm_file_path self) (hmm_list self) false ∨
      (DEBUG env = false ∧
       c = CRmtree (posixpath.join (kofam_data_dir self) "profiles")) ∨
      c = CRunCommand ["hmmpress"; kofam_hmm_file_path self]
            (posixpath.join (kofam_data_dir self) "00_hmmpress_log.txt") ∨
      c = CRemove (posixpath.join (kofam_data_dir self) "00_hmmpress_log.txt"))
    (run_hmmpress X env self)).
  unfold run_hmmpress.
  apply emits_bind; [apply emits_observe|]. intros _.
  apply emits_bind; [apply emits_invoke; by left|]. intros _.
  apply emits_bind.
  { destruct (DEBUG env); simpl; [apply emits_mret|].
    apply emits_invoke. right. by left. }
  intros _. apply emits_bind; [apply emits_invoke; right; right; by left|].
  intros ret_val.
  destruct (negb _); [apply emits_raise|].
  apply emits_invoke. right. right. by right.
Qed.

(** ** Construction and set-up together *)

(** The calls of a run of [setup_profiles] that returns. *)
Lemma setup_profiles_Return_calls X env (self : KofamSetup) w w' :
  setup_profiles X env self w = (w', Return tt) →
  calls w' = calls w ++ complete_run_calls env self.
Proof.
  intros Hrun. unfold setup_profiles in Hrun.
  apply bind_inv_Return in Hrun as (w1 & [] & Hd & Hrun).
  apply bind_inv_Return in Hrun as (w2 & [] & Hz & Hrun).
  rewrite run_hmmpress_stages in Hrun.
  apply bind_inv_Return in Hrun as (w3 & [] & Hv & Hi).
  apply download_calls in Hd. apply decompress_files_calls in Hz.
  apply verify_and_concatenate_calls in Hv. apply run_indexer_calls in Hi.
  unfold complete_run_calls. rewrite Hi, Hv, Hz, Hd.
  by rewrite <- !app_assoc.
Qed.

(** X17.  A construction followed by a run of [setup_profiles] on the
    object it returned, both returning, has made these calls in this order
    and no others: the table is read from the data directory before
    anything is downloaded (the catalog of the run is the one found there),
    then the program is looked up and the directory prepared, the two files
    are downloaded from the fixed URL, [ko_list.gz] is gunzipped and
    [profiles.tar.gz] extracted, the profiles are concatenated into
    [Kofam.hmm], removed unless the debug override is on, and hmmpress is
    run and its log removed. *)
Theorem construct_then_setup_calls (X : Collaborators) (env : Env)
  (args : Namespace) (w w1 w2 : World) (setup : KofamSetup) :
  KofamSetup_init X env args w = (w1, Return setup) →
  setup_profiles X env setup w1 = (w2, Return tt) →
  ∃ reset,
    args !! "reset" = Some reset ∧
    calls w2 = calls w ++
      [CGetTable (posixpath.join (kofam_data_dir setup) "ko_list");
       CIsProgramExists "hmmpress";
       CGenOutputDirectory (kofam_data_dir setup) reset;
       CDownloadFile "ftp://ftp.genome.jp/pub/db/kofam/ko_list.gz"
         (posixpath.join (kofam_data_dir setup) "ko_list.gz");
       CDownloadFile "ftp://ftp.genome.jp/pub/db/kofam/profiles.tar.gz"
         (posixpath.join (kofam_data_dir setup) "profiles.tar.gz");
       CGzipDecompressFile
         (posixpath.join (kofam_data_dir setup) "ko_list.gz") false;
       CTarExtractFile
         (posixpath.join (kofam_data_dir setup) "profiles.tar.gz")
         (kofam_data_dir setup) false;
       CConcatenateFiles (posixpath.join (kofam_data_dir setup) "Kofam.hmm")
         (hmm_list setup) false] ++
      (if DEBUG env then []
       else [CRmtree (posixpath.join (kofam_data_dir setup) "profiles")]) ++
      [CRunCommand
         ["hmmpress"; posixpath.join (kofam_data_dir setup) "Kofam.hmm"]
         (posixpath.join (kofam_data_dir setup) "00_hmmpress_log.txt");
       CRemove (posixpath.join (kofam_data_dir setup) "00_hmmpress_log.txt")].
Proof.
  intros Hinit Hsetup.
  destruct (KofamSetup_init_Return_calls X env args w w1 setup Hinit)
    as (reset & Hreset & Hobj & Hc1).
  exists reset. split; [done|].
  assert (Hpaths : kofam_hmm_file_path setup
                   = posixpath.join (kofam_data_dir setup) "Kofam.hmm" ∧
                   ko_list_file_path setup
                   = posixpath.join (kofam_data_dir setup) "ko_list").
  { unfold KofamSetup_init in Hinit.
    apply bind_inv_Return in Hinit as (w0 & self & Hctx & Hrest).
    apply KofamContext_init_inv in Hctx as (_ & Hhmm & Hlist & _).
    rewrite Hobj. simpl.
    apply bind_inv_Return in Hrest as (? & [] & _ & Hrest).
    apply bind_inv_Return in Hrest as (? & ? & _ & Hrest).
    apply bind_inv_Return in Hrest as (? & [] & _ & Hrest).
    apply bind_inv_Return in Hrest as (? & ? & _ & Hrest).
    apply bind_inv_Return in Hrest as (? & [] & _ & Hrest).
    rewrite mret_run in Hrest. injection Hrest as _ <-. by simpl. }
  destruct Hpaths as [Hhmm Hlist].
  rewrite (setup_profiles_Return_calls X env setup w1 w2 Hsetup), Hc1.
  unfold complete_run_calls.
  assert (Hd : download_call setup <$> files setup =
    [CDownloadFile "ftp://ftp.genome.jp/pub/db/kofam/ko_list.gz"
       (posixpath.join (kofam_data_dir setup) "ko_list.gz");
     CDownloadFile "ftp://ftp.genome.jp/pub/db/kofam/profiles.tar.gz"
       (posixpath.join (kofam_data_dir setup) "profiles.tar.gz")])
    by (by rewrite Hobj).
  assert (Hz : decompress_call setup <$> files setup =
    [CGzipDecompressFile
       (posixpath.join (kofam_data_dir setup) "ko_list.gz") false;
     CTarExtractFile
       (posixpath.join (kofam_data_dir setup) "profiles.tar.gz")
       (kofam_data_dir setup) false]).
  { rewrite Hobj. simpl. unfold decompress_call. cbv zeta.
    by rewrite !endswith_join_tar_gz. }
  rewrite Hd, Hz, Hhmm, Hlist. unfold profiles_dir, log_file_path_of.
  by rewrite <- !app_assoc.
Qed.

Lemma construct_then_setup_calls_witness :
  ∃ w1 w2 setup,
    KofamSetup_init (sim complete_site) normal_env reset_args installed_world
    = (w1, Return setup) ∧
    setup_profiles (sim complete_site) normal_env setup w1 = (w2, Return tt) ∧
    calls w2 =
      [CGetTable "/data/KEGG/ko_list"; CIsProgramExists "hmmpress";
       CGenOutputDirectory "/data/KEGG" (PyBool true);
       CDownloadFile "ftp://ftp.genome.jp/pub/db/kofam/ko_list.gz"
         "/data/KEGG/ko_list.gz";
       CDownloadFile "ftp://ftp.genome.jp/pub/db/kofam/profiles.tar.gz"
         "/data/KEGG/profiles.tar.gz";
       CGzipDecompressFile "/data/KEGG/ko_list.gz" false;
       CTarExtractFile "/data/KEGG/profiles.tar.gz" "/data/KEGG" false;
       CConcatenateFiles "/data/KEGG/Kofam.hmm"
         ["/data/KEGG/profiles/K00001.hmm"] false;
       CRmtree "/data/KEGG/profiles";
       CRunCommand ["hmmpress"; "/data/KEGG/Kofam.hmm"]
         "/data/KEGG/00_hmmpress_log.txt";
       CRemove "/data/KEGG/00_hmmpress_log.txt"].
Proof.
  pose (setup := constructed example_context reset_args).
  pose (w1 := (KofamSetup_init (sim complete_site) normal_env reset_args
                 installed_world).1).
  pose (w2 := (setup_profiles (sim complete_site) normal_env setup w1).1).
  assert (Hinit : KofamSetup_init (sim complete_site) normal_env reset_args
                    installed_world = (w1, Return setup))
    by (vm_compute; reflexivity).
  assert (Hrun : setup_profiles (sim complete_site) normal_env setup w1
                 = (w2, Return tt)) by (vm_compute; reflexivity).
  exists w1, w2, setup. split; [exact Hinit|]. split; [exact Hrun|].
  destruct (construct_then_setup_calls (sim complete_site) normal_env reset_args
              installed_world w1 w2 setup Hinit Hrun) as (reset & Hreset & Hc).
  etransitivity; [exact Hc|].
  assert (reset = PyBool true) as -> by (vm_compute in Hreset; congruence).
  vm_compute. reflexivity.
Defined.

(** ** The default data directory *)

Lemma head_upto_last_sep_no_sep (name : string) :
  no_sep name = true → posixpath.head_upto_last_sep name = "".
Proof.
  induction name as [|a name IH]; [done|]. simpl.
  intros [Ha Hname]%andb_true_iff. rewrite (IH Hname).
  by destruct (Ascii.eqb a posixpath.sep).
Qed.

Lemma head_upto_last_sep_cons (a : ascii) (p : string) :
  posixpath.head_upto_last_sep (String a p)
  = match posixpath.head_upto_last_sep p with
    | "" => if Ascii.eqb a posixpath.sep then "/" else ""
    | h => String a h
    end.
Proof. reflexivity. Qed.

Lemma rstrip_sep_cons (a : ascii) (s : string) :
  posixpath.rstrip_sep (String a s)
  = match posixpath.rstrip_sep s with
    | "" => if Ascii.eqb a posixpath.sep then "" else String a ""
    | r => String a r
    end.
Proof. reflexivity. Qed.

Lemma head_upto_last_sep_app (x name : string) :
  no_sep name = true →
  posixpath.head_upto_last_sep (x +:+ "/" +:+ name) = x +:+ "/".
Proof.
  intros Hname. induction x as [|a x IH].
  - change ("" +:+ "/" +:+ name) with (String "/" name).
    rewrite head_upto_last_sep_cons. by rewrite head_upto_last_sep_no_sep.
  - rewrite !(string_app_cons a x), head_upto_last_sep_cons, IH.
    destruct x; reflexivity.
Qed.

Lemma rstrip_sep_app_sep (s : string) :
  posixpath.rstrip_sep (s +:+ "/") = posixpath.rstrip_sep s.
Proof.
  induction s as [|a s IH]; [done|].
  by rewrite (string_app_cons a s), !rstrip_sep_cons, IH.
Qed.

Lemma rstrip_sep_id (s : string) :
  posixpath.endswith_sep s = false → posixpath.rstrip_sep s = s.
Proof.
  induction s as [|a s IH]; [done|]. destruct s as [|b s].
  - simpl. by intros ->.
  - intros Hend. change (posixpath.endswith_sep (String b s) = false) in Hend.
    by rewrite rstrip_sep_cons, (IH Hend).
Qed.

Lemma all_sep_endswith (s : string) :
  s ≠ "" → posixpath.all_sep s = true → posixpath.endswith_sep s = true.
Proof.
  induction s as [|a s IH]; [done|]. intros _. simpl.
  intros [Ha Hs]%andb_true_iff. destruct s as [|b s]; [done|].
  by apply IH.
Qed.

Lemma all_sep_app_sep (s : string) :
  posixpath.all_sep (s +:+ "/") = posixpath.all_sep s.
Proof.
  induction s as [|a s IH]; [done|]. rewrite string_app_cons. simpl.
  by rewrite IH.
Qed.

Lemma dirname_of_file (pkg name : string) :
  pkg ≠ "" → posixpath.endswith_sep pkg = false → no_sep name = true →
  posixpath.dirname (pkg +:+ "/" +:+ name) = pkg.
Proof.
  intros Hne Hend Hname. unfold posixpath.dirname. cbv zeta.
  rewrite head_upto_last_sep_app by done.
  assert (String.eqb (pkg +:+ "/") "" = false) as ->
    by (by destruct pkg).
  assert (posixpath.all_sep (pkg +:+ "/") = false) as ->.
  { rewrite all_sep_app_sep. destruct (posixpath.all_sep pkg) eqn:Hall; [|done].
    apply all_sep_endswith in Hall; [congruence | done]. }
  simpl. by rewrite rstrip_sep_app_sep, rstrip_sep_id.
Qed.

(** X18.  When the anvio package is the file [<pkg>/<name>], with [<pkg>]
    not ending in a separator and [<name>] without one, the default data
    directory is [<pkg>/data/misc/KEGG]. *)
Theorem default_kofam_data_dir_below_package (env : Env) (pkg name : string) :
  anvio_file env = pkg +:+ "/" +:+ name →
  pkg ≠ "" → posixpath.endswith_sep pkg = false → no_sep name = true →
  default_kofam_data_dir env = pkg +:+ "/data/misc/KEGG".
Proof.
  intros Hfile Hne Hend Hname. unfold default_kofam_data_dir.
  rewrite Hfile, dirname_of_file by done.
  rewrite join_relative by done. unfold dir_prefix. rewrite Hend.
  destruct (String.eqb_spec pkg "") as [|_]; [done|]. simpl.
  by rewrite string_app_assoc.
Qed.

Lemma default_kofam_data_dir_below_package_witness :
  default_kofam_data_dir normal_env = "/opt/anvio/anvio" +:+ "/data/misc/KEGG".
Proof.
  apply (default_kofam_data_dir_below_package normal_env "/opt/anvio/anvio"
           "__init__.py"); [reflexivity | discriminate | reflexivity..].
Defined.

(** ** The check: what it depends on, and the empty case *)

Lemma confirm_loop_agree (self : KofamContext) (fs fs' : FS) ks :
  (∀ k, k ∈ ks → k ∉ ko_skip_list self →
        os_path_exists fs (hmm_path_of (kofam_data_dir self) k)
        = os_path_exists fs' (hmm_path_of (kofam_data_dir self) k)) →
  confirm_loop self fs ks = confirm_loop self fs' ks.
Proof.
  induction ks as [|k ks IH]; intros Hagree; [done|].
  rewrite !confirm_loop_cons.
  assert (IH' : confirm_loop self fs ks = confirm_loop self fs' ks)
    by (apply IH; intros k' Hk'; apply Hagree, elem_of_cons; by right).
  destruct (list_contains (ko_skip_list self) k) eqn:Hskip; [done|].
  apply list_contains_false in Hskip.
  rewrite <- (Hagree k) by (done || apply elem_of_cons; by left).
  by destruct (os_path_exists fs _).
Qed.

(** X19.  The outcome of [confirm_downloaded_files], the exception
    included, depends on the file system only through the existence of the
    profiles of the identifiers that are not skip-listed: whether a
    skip-listed identifier has a profile, or what else the directory holds,
    makes no difference. *)
Theorem confirm_downloaded_files_depends (self : KofamContext) (fs fs' : FS) :
  (∀ k, k ∈ dict_keys (ko_dict self) → k ∉ ko_skip_list self →
        os_path_exists fs (hmm_path_of (kofam_data_dir self) k)
        = os_path_exists fs' (hmm_path_of (kofam_data_dir self) k)) →
  confirm_downloaded_files self fs = confirm_downloaded_files self fs'.
Proof. apply confirm_loop_agree. Qed.

Lemma confirm_downloaded_files_depends_witness :
  confirm_downloaded_files example_context (fs extracted_world)
  = confirm_downloaded_files example_context (fs extracted_world_with_rna).
Proof.
  apply (confirm_downloaded_files_depends example_context).
  intros k Hk Hskip. unfold extracted_world_with_rna, os_path_exists.
  cbn [fs]. rewrite lookup_insert_ne; [done|].
  change "/data/KEGG/profiles/K14936.hmm"
    with (hmm_path_of (kofam_data_dir example_context) "K14936").
  intros Heq. apply hmm_path_of_inj in Heq. subst k. apply Hskip.
  apply list_elem_of_here.
Defined.

(** X20.  When every identifier of the catalog is skip-listed, in
    particular when the catalog is empty, the check passes on any file
    system and the list handed to the concatenation is empty. *)
Theorem all_skipped_nothing_to_check (self : KofamContext) (fs : FS) :
  (∀ k, k ∈ dict_keys (ko_dict self) → k ∈ ko_skip_list self) →
  confirm_downloaded_files self fs = Return tt ∧ hmm_list self = [].
Proof.
  intros Hall. split.
  - apply confirm_loop_Return. intros k Hk Hns. by destruct Hns; apply Hall.
  - rewrite hmm_list_filter.
    assert (List.filter (λ k, bool_decide (k ∉ ko_skip_list self))
                        (dict_keys (ko_dict self)) = []) as ->; [|done].
    induction (dict_keys (ko_dict self)) as [|k ks IH]; [done|]. simpl.
    rewrite bool_decide_eq_false_2.
    + apply IH. intros k' Hk'. apply Hall, elem_of_cons. by right.
    + intros Hns. apply Hns, Hall, elem_of_cons. by left.
Qed.

Lemma all_skipped_nothing_to_check_witness :
  confirm_downloaded_files rna_only_context ∅ = Return tt ∧
  hmm_list rna_only_context = [].
Proof.
  apply (all_skipped_nothing_to_check rna_only_context ∅).
  intros k Hk. exact Hk.
Defined.
